(** * Proxy-server run options: defaults and validation

    A shallow embedding of [cmd/server/app/options/options.go]: the
    [ProxyRunOptions] struct, its default instance [NewProxyRunOptions] and
    the fail-fast checker [Validate], together with the properties of the
    validation order, the port ranges, the TLS pairing rules, the
    service-account block and the derived [NeedsKubernetesClient] field. *)

From Stdlib Require Import ZArith Bool List Ascii String Lia.
From stdpp Require Import base strings gmap.
Import ListNotations.

Local Open Scope Z_scope.

(** ** Data model *)

(** The four TCP listeners whose ports [Validate] range-checks.  The error
    messages name them ("for the server port", ...). *)
Inductive Listener : Set :=
  | ServerListener
  | AgentListener
  | AdminListener
  | HealthListener.

(** [ProxyRunOptions], field for field.  Go [int] and [time.Duration] are
    64-bit signed integers; [Validate] only compares them, so they are kept
    as [Z].  [KubeconfigQPS] is a [float32] that nothing here reads: it is
    kept as its IEEE-754 bit pattern. *)
Record ProxyRunOptions : Type := {
  ServerCert : string;
  ServerKey : string;
  ServerCaCert : string;
  ClusterCert : string;
  ClusterKey : string;
  ClusterCaCert : string;
  Mode : string;
  UdsName : string;
  DeleteUDSFile : bool;
  ServerPort : Z;
  ServerBindAddress : string;
  AgentPort : Z;
  AgentBindAddress : string;
  AdminPort : Z;
  AdminBindAddress : string;
  HealthPort : Z;
  HealthBindAddress : string;
  KeepaliveTime : Z;
  FrontendKeepaliveTime : Z;
  EnableProfiling : bool;
  EnableContentionProfiling : bool;
  ServerID : string;
  ServerCount : Z;
  AgentNamespace : string;
  AgentServiceAccount : string;
  AuthenticationAudience : string;
  KubeconfigPath : string;
  KubeconfigQPS : Z;
  KubeconfigBurst : Z;
  APIContentType : string;
  ProxyStrategies : string;
  CipherSuites : list string;
  XfrChannelSize : Z;
  EnableLeaseController : bool;
  LeaseNamespace : string;
  LeaseLabel : string;
  NeedsKubernetesClient : bool
}.

(** ** The world outside the package *)

(** A Go [error] coming back from [os.Stat]: [None] is [nil], [Some e] is a
    [*PathError] wrapping the system error number [e]. *)
Definition GoError : Type := option Z.

Definition ENOENT : Z := 2.
Definition EACCES : Z := 13.

(** [os.IsNotExist]: true exactly when the error unwraps to [ENOENT]; in
    particular false on [nil]. *)
Definition os_IsNotExist (err : GoError) : bool :=
  match err with
  | Some e => e =? ENOENT
  | None => false
  end.

(** The strategies of [pkg/server/proxystrategies], as the help text of the
    [proxy-strategies] flag lists them. *)
Inductive ProxyStrategy : Set :=
  | ProxyStrategyDefault
  | ProxyStrategyDestHost
  | ProxyStrategyDefaultRoute.

(** A Go [(value, error)] result whose error is kept as its message. *)
Definition Result (A : Type) : Type := (string + A)%type.

(** Everything [Validate] and [NewProxyRunOptions] call that lives outside
    this file: the file system, the process environment, the UUID source
    and the three collaborators of [pkg/]. *)
Record Env : Type := {
  os_Stat : string -> GoError;
  os_Getenv : string -> string;
  uuid_New : string;
  ParseProxyStrategies : string -> Result (list ProxyStrategy);
  GetAcceptedCiphers : gmap string Z;
  ParseLabels : string -> Result (list (string * string))
}.

(** Modelled from the spec: the mode constants [server.ModeGRPC] and
    [server.ModeHTTPConnect] of [pkg/server], which the spec gives as the
    pair grpc, http-connect (the error text of [Validate] spells them the
    same way). *)
Definition ModeGRPC : string := "grpc".
Definition ModeHTTPConnect : string := "http-connect".

(** [runtime.ContentTypeProtobuf] of k8s.io/apimachinery. *)
Definition ContentTypeProtobuf : string := "application/vnd.kubernetes.protobuf".

(** [time.Hour], in nanoseconds. *)
Definition Hour : Z := 3600 * 1000000000.

(** ** Errors *)

(** One constructor per [return fmt.Errorf(...)] of [Validate], carrying the
    arguments of the format string. *)
Inductive ValidateError : Type :=
  | ErrCheckingServerKey (path : string) (err : GoError)
      (* "error checking server key %s, got %v" *)
  | ErrServerCertEmpty (key : string)
      (* "cannot have server cert empty when server key is set to %q" *)
  | ErrCheckingServerCert (path : string) (err : GoError)
      (* "error checking server cert %s, got %v" *)
  | ErrServerKeyEmpty (cert : string)
      (* "cannot have server key empty when server cert is set to %q" *)
  | ErrCheckingServerCaCert (path : string) (err : GoError)
      (* "error checking server CA cert %s, got %v" *)
  | ErrCheckingClusterKey (path : string) (err : GoError)
      (* "error checking cluster key %s, got %v" *)
  | ErrClusterCertEmpty (key : string)
      (* "cannot have cluster cert empty when cluster key is set to %q" *)
  | ErrCheckingClusterCert (path : string) (err : GoError)
      (* "error checking cluster cert %s, got %v" *)
  | ErrClusterKeyEmpty (cert : string)
      (* "cannot have cluster key empty when cluster cert is set to %q" *)
  | ErrCheckingClusterCaCert (path : string) (err : GoError)
      (* "error checking cluster CA cert %s, got %v" *)
  | ErrMode (mode : string)
      (* "mode must be set to either 'grpc' or 'http-connect' not %q" *)
  | ErrUdsServerPort (port : Z)
      (* "server port should be set to 0 not %d for UDS" *)
  | ErrUdsServerKey
      (* "server key should not be set for UDS" *)
  | ErrUdsServerCert
      (* "server cert should not be set for UDS" *)
  | ErrUdsServerCaCert
      (* "server ca cert should not be set for UDS" *)
  | ErrEphemeralPort (l : Listener) (port : Z)
      (* "please do not try to use ephemeral port %d for the ... port" *)
  | ErrReservedPort (l : Listener) (port : Z)
      (* "please do not try to use reserved port %d for the ... port" *)
  | ErrContentionProfiling
      (* "if --enable-contention-profiling is set, --enable-profiling must also be set" *)
  | ErrAuthClusterCaCert
      (* "--cluster-ca-cert can not be used when agent authentication is enabled" *)
  | ErrAgentNamespaceEmpty
      (* "--agent-namespace cannot be empty when agent authentication is enabled" *)
  | ErrAgentServiceAccountEmpty
      (* "--agent-service-account cannot be empty when agent authentication is enabled" *)
  | ErrAuthenticationAudienceEmpty
      (* "--authentication-audience cannot be empty when agent authentication is enabled" *)
  | ErrCheckingKubeconfigPath (path : string) (err : GoError)
      (* "checking KubeconfigPath %q, got %v" *)
  | ErrProxyStrategiesEmpty
      (* "ProxyStrategies cannot be empty" *)
  | ErrInvalidProxyStrategies (err : string)
      (* "invalid proxy strategies: %v" *)
  | ErrChannelSize (size : Z)
      (* "channel size %d must be greater than 0" *)
  | ErrCipherSuite (cipher : string)
      (* "cipher suite %s not supported, doesn't exist or considered as insecure" *)
  | ErrLeaseLabel (err : string)
      (* the error of util.ParseLabels, returned as it is *).

(** ** A state-and-error monad for methods on [*ProxyRunOptions] *)

Module Method.

(** A method body: it runs on the struct behind the receiver, may write
    to it, and either returns early with an error or yields a value. *)
Definition M (A : Type) : Type :=
  ProxyRunOptions -> ProxyRunOptions * (ValidateError + A).

Definition ret {A} (a : A) : M A := fun s => (s, inr a).

Definition bind {A B} (m : M A) (k : A -> M B) : M B :=
  fun s =>
    match m s with
    | (s', inl e) => (s', inl e)
    | (s', inr a) => k a s'
    end.

(** [return fmt.Errorf(...)]. *)
Definition fail {A} (e : ValidateError) : M A := fun s => (s, inl e).

(** Reading and writing through the receiver. *)
Definition get : M ProxyRunOptions := fun s => (s, inr s).
Definition modify (f : ProxyRunOptions -> ProxyRunOptions) : M unit :=
  fun s => (f s, inr tt).

(** [if b { ... }] with no [else]. *)
Definition when (b : bool) (m : M unit) : M unit :=
  if b then m else ret tt.

(** [for _, x := range l { ... }]. *)
Fixpoint for_each {A} (l : list A) (body : A -> M unit) : M unit :=
  match l with
  | [] => ret tt
  | x :: l' => bind (body x) (fun _ => for_each l' body)
  end.

End Method.

Import Method.

Declare Scope method_scope.
Delimit Scope method_scope with method.
Notation "x <- m ; k" := (bind m (fun x => k))
  (at level 20, m at level 100, k at level 200, only parsing) : method_scope.
Notation "m ;; k" := (bind m (fun _ => k))
  (at level 100, k at level 200, right associativity) : method_scope.

Local Open Scope method_scope.

(** ** Field updates *)

(** [o.NeedsKubernetesClient = v]. *)
Definition set_NeedsKubernetesClient (v : bool) (o : ProxyRunOptions) : ProxyRunOptions :=
  {| ServerCert := ServerCert o; ServerKey := ServerKey o; ServerCaCert := ServerCaCert o;
     ClusterCert := ClusterCert o; ClusterKey := ClusterKey o; ClusterCaCert := ClusterCaCert o;
     Mode := Mode o; UdsName := UdsName o; DeleteUDSFile := DeleteUDSFile o;
     ServerPort := ServerPort o; ServerBindAddress := ServerBindAddress o;
     AgentPort := AgentPort o; AgentBindAddress := AgentBindAddress o;
     AdminPort := AdminPort o; AdminBindAddress := AdminBindAddress o;
     HealthPort := HealthPort o; HealthBindAddress := HealthBindAddress o;
     KeepaliveTime := KeepaliveTime o; FrontendKeepaliveTime := FrontendKeepaliveTime o;
     EnableProfiling := EnableProfiling o;
     EnableContentionProfiling := EnableContentionProfiling o;
     ServerID := ServerID o; ServerCount := ServerCount o;
     AgentNamespace := AgentNamespace o; AgentServiceAccount := AgentServiceAccount o;
     AuthenticationAudience := AuthenticationAudience o;
     KubeconfigPath := KubeconfigPath o; KubeconfigQPS := KubeconfigQPS o;
     KubeconfigBurst := KubeconfigBurst o; APIContentType := APIContentType o;
     ProxyStrategies := ProxyStrategies o; CipherSuites := CipherSuites o;
     XfrChannelSize := XfrChannelSize o;
     EnableLeaseController := EnableLeaseController o;
     LeaseNamespace := LeaseNamespace o; LeaseLabel := LeaseLabel o;
     NeedsKubernetesClient := v |}.

(** ** Validate *)

(** Go's [a != b] and [a == b] on strings. *)
Definition str_ne (a b : string) : bool := negb (String.eqb a b).
Definition str_eq (a b : string) : bool := String.eqb a b.

(** The value [Validate] gives its local [usingServiceAccountAuth]. *)
Definition serviceAccountAuth (o : ProxyRunOptions) : bool :=
  str_ne (AgentNamespace o) "" || str_ne (AgentServiceAccount o) ""
  || str_ne (AuthenticationAudience o) "".

(** [func (o *ProxyRunOptions) Validate() error], statement by statement.
    Every condition reads the struct behind [o]; nothing is written before
    the last assignment, which goes through the receiver. *)
Definition Validate (E : Env) : M unit :=
  o <- get;
  when (str_ne (ServerKey o) "") (
    (let err := os_Stat E (ServerKey o) in
     when (os_IsNotExist err) (fail (ErrCheckingServerKey (ServerKey o) err)));;
    when (str_eq (ServerCert o) "") (fail (ErrServerCertEmpty (ServerKey o))));;
  when (str_ne (ServerCert o) "") (
    (let err := os_Stat E (ServerCert o) in
     when (os_IsNotExist err) (fail (ErrCheckingServerCert (ServerCert o) err)));;
    when (str_eq (ServerKey o) "") (fail (ErrServerKeyEmpty (ServerCert o))));;
  when (str_ne (ServerCaCert o) "") (
    let err := os_Stat E (ServerCaCert o) in
    when (os_IsNotExist err) (fail (ErrCheckingServerCaCert (ServerCaCert o) err)));;
  when (str_ne (ClusterKey o) "") (
    (let err := os_Stat E (ClusterKey o) in
     when (os_IsNotExist err) (fail (ErrCheckingClusterKey (ClusterKey o) err)));;
    when (str_eq (ClusterCert o) "") (fail (ErrClusterCertEmpty (ClusterKey o))));;
  when (str_ne (ClusterCert o) "") (
    (let err := os_Stat E (ClusterCert o) in
     when (os_IsNotExist err) (fail (ErrCheckingClusterCert (ClusterCert o) err)));;
    when (str_eq (ClusterKey o) "") (fail (ErrClusterKeyEmpty (ClusterCert o))));;
  when (str_ne (ClusterCaCert o) "") (
    let err := os_Stat E (ClusterCaCert o) in
    when (os_IsNotExist err) (fail (ErrCheckingClusterCaCert (ClusterCaCert o) err)));;
  when (str_ne (Mode o) ModeGRPC && str_ne (Mode o) ModeHTTPConnect)
    (fail (ErrMode (Mode o)));;
  when (str_ne (UdsName o) "") (
    when (negb (ServerPort o =? 0)) (fail (ErrUdsServerPort (ServerPort o)));;
    when (str_ne (ServerKey o) "") (fail ErrUdsServerKey);;
    when (str_ne (ServerCert o) "") (fail ErrUdsServerCert);;
    when (str_ne (ServerCaCert o) "") (fail ErrUdsServerCaCert));;
  when (ServerPort o >? 49151) (fail (ErrEphemeralPort ServerListener (ServerPort o)));;
  when (AgentPort o >? 49151) (fail (ErrEphemeralPort AgentListener (AgentPort o)));;
  when (AdminPort o >? 49151) (fail (ErrEphemeralPort AdminListener (AdminPort o)));;
  when (HealthPort o >? 49151) (fail (ErrEphemeralPort HealthListener (HealthPort o)));;
  when (ServerPort o <? 1024) (
    when (str_eq (UdsName o) "") (fail (ErrReservedPort ServerListener (ServerPort o))));;
  when (AgentPort o <? 1024) (fail (ErrReservedPort AgentListener (AgentPort o)));;
  when (AdminPort o <? 1024) (fail (ErrReservedPort AdminListener (AdminPort o)));;
  when (HealthPort o <? 1024) (fail (ErrReservedPort HealthListener (HealthPort o)));;
  when (EnableContentionProfiling o && negb (EnableProfiling o))
    (fail ErrContentionProfiling);;
  let usingServiceAccountAuth :=
    str_ne (AgentNamespace o) "" || str_ne (AgentServiceAccount o) ""
    || str_ne (AuthenticationAudience o) "" in
  when usingServiceAccountAuth (
    when (str_ne (ClusterCaCert o) "") (fail ErrAuthClusterCaCert);;
    when (str_eq (AgentNamespace o) "") (fail ErrAgentNamespaceEmpty);;
    when (str_eq (AgentServiceAccount o) "") (fail ErrAgentServiceAccountEmpty);;
    when (str_eq (AuthenticationAudience o) "") (fail ErrAuthenticationAudienceEmpty));;
  when (str_ne (KubeconfigPath o) "") (
    let err := os_Stat E (KubeconfigPath o) in
    when (os_IsNotExist err) (fail (ErrCheckingKubeconfigPath (KubeconfigPath o) err)));;
  when (Nat.eqb (String.length (ProxyStrategies o)) 0) (fail ErrProxyStrategiesEmpty);;
  match ParseProxyStrategies E (ProxyStrategies o) with
  | inl err => fail (ErrInvalidProxyStrategies err)
  | inr _ => ret tt
  end;;
  when (XfrChannelSize o <=? 0) (fail (ErrChannelSize (XfrChannelSize o)));;
  when (negb (Nat.eqb (length (CipherSuites o)) 0)) (
    let acceptedCiphers := GetAcceptedCiphers E in
    for_each (CipherSuites o) (fun cipher =>
      match acceptedCiphers !! cipher with
      | Some _ => ret tt
      | None => fail (ErrCipherSuite cipher)
      end));;
  when (EnableLeaseController o) (
    match ParseLabels E (LeaseLabel o) with
    | inl err => fail (ErrLeaseLabel err)
    | inr _ => ret tt
    end);;
  modify (fun s =>
    set_NeedsKubernetesClient (usingServiceAccountAuth || EnableLeaseController s) s);;
  ret tt.

(** ** Defaults *)

(** [defaultServerID]: the [PROXY_SERVER_ID] environment variable when it
    is set, a fresh UUID otherwise. *)
Definition defaultServerID (E : Env) : string :=
  let id := os_Getenv E "PROXY_SERVER_ID" in
  if str_ne id "" then id else uuid_New E.

(** [NewProxyRunOptions].  The literal leaves [NeedsKubernetesClient] out,
    so it has Go's zero value. *)
Definition NewProxyRunOptions (E : Env) : ProxyRunOptions :=
  {| ServerCert := "";
     ServerKey := "";
     ServerCaCert := "";
     ClusterCert := "";
     ClusterKey := "";
     ClusterCaCert := "";
     Mode := "grpc";
     UdsName := "";
     DeleteUDSFile := true;
     ServerPort := 8090;
     ServerBindAddress := "";
     AgentPort := 8091;
     AgentBindAddress := "";
     HealthPort := 8092;
     HealthBindAddress := "";
     AdminPort := 8095;
     AdminBindAddress := "127.0.0.1";
     KeepaliveTime := 1 * Hour;
     FrontendKeepaliveTime := 1 * Hour;
     EnableProfiling := false;
     EnableContentionProfiling := false;
     ServerID := defaultServerID E;
     ServerCount := 1;
     AgentNamespace := "";
     AgentServiceAccount := "";
     KubeconfigPath := "";
     KubeconfigQPS := 0;
     KubeconfigBurst := 0;
     APIContentType := ContentTypeProtobuf;
     AuthenticationAudience := "";
     ProxyStrategies := "default";
     CipherSuites := [];
     XfrChannelSize := 10;
     EnableLeaseController := false;
     LeaseNamespace := "kube-system";
     LeaseLabel := "k8s-app=konnectivity-server";
     NeedsKubernetesClient := false |}.

(** What a run of [Validate] on [o] returns: [None] is Go's [nil]. *)
Definition validate_error (E : Env) (o : ProxyRunOptions) : option ValidateError :=
  match Validate E o with
  | (_, inl e) => Some e
  | (_, inr _) => None
  end.

(** The struct behind the receiver after the run. *)
Definition validate_state (E : Env) (o : ProxyRunOptions) : ProxyRunOptions :=
  fst (Validate E o).

Definition validate_ok (E : Env) (o : ProxyRunOptions) : bool :=
  match validate_error E o with
  | None => true
  | Some _ => false
  end.

(** ** The constraints as an ordered list

    The validation order written as data: every constraint is a named
    test that yields the error of its violation, and the groups are
    concatenated in the order the checker meets them. *)

Definition violated (b : bool) (e : ValidateError) : option ValidateError :=
  if b then Some e else None.

Fixpoint first_violated (l : list (option ValidateError)) : option ValidateError :=
  match l with
  | [] => None
  | Some e :: _ => Some e
  | None :: l' => first_violated l'
  end.

(** A path that is set must not be reported missing by [os.Stat]. *)
Definition file_exists (E : Env) (path : string)
    (mk : string -> GoError -> ValidateError) : option ValidateError :=
  violated (str_ne path "" && os_IsNotExist (os_Stat E path)) (mk path (os_Stat E path)).

(** Whichever of [this] and [other] is set, the other one is set too. *)
Definition paired (this other : string) (mk : string -> ValidateError)
    : option ValidateError :=
  violated (str_ne this "" && str_eq other "") (mk this).

Definition frontend_tls (E : Env) (o : ProxyRunOptions) : list (option ValidateError) :=
  [ file_exists E (ServerKey o) ErrCheckingServerKey;
    paired (ServerKey o) (ServerCert o) ErrServerCertEmpty;
    file_exists E (ServerCert o) ErrCheckingServerCert;
    paired (ServerCert o) (ServerKey o) ErrServerKeyEmpty;
    file_exists E (ServerCaCert o) ErrCheckingServerCaCert ].

Definition backend_tls (E : Env) (o : ProxyRunOptions) : list (option ValidateError) :=
  [ file_exists E (ClusterKey o) ErrCheckingClusterKey;
    paired (ClusterKey o) (ClusterCert o) ErrClusterCertEmpty;
    file_exists E (ClusterCert o) ErrCheckingClusterCert;
    paired (ClusterCert o) (ClusterKey o) ErrClusterKeyEmpty;
    file_exists E (ClusterCaCert o) ErrCheckingClusterCaCert ].

Definition mode_enum (o : ProxyRunOptions) : option ValidateError :=
  violated (str_ne (Mode o) ModeGRPC && str_ne (Mode o) ModeHTTPConnect) (ErrMode (Mode o)).

Definition uds_exclusivity (o : ProxyRunOptions) : list (option ValidateError) :=
  [ violated (str_ne (UdsName o) "" && negb (ServerPort o =? 0))
      (ErrUdsServerPort (ServerPort o));
    violated (str_ne (UdsName o) "" && str_ne (ServerKey o) "") ErrUdsServerKey;
    violated (str_ne (UdsName o) "" && str_ne (ServerCert o) "") ErrUdsServerCert;
    violated (str_ne (UdsName o) "" && str_ne (ServerCaCert o) "") ErrUdsServerCaCert ].

Definition port_of (l : Listener) (o : ProxyRunOptions) : Z :=
  match l with
  | ServerListener => ServerPort o
  | AgentListener => AgentPort o
  | AdminListener => AdminPort o
  | HealthListener => HealthPort o
  end.

(** The upper bound of a listener's port. *)
Definition not_ephemeral (l : Listener) (o : ProxyRunOptions) : option ValidateError :=
  violated (port_of l o >? 49151) (ErrEphemeralPort l (port_of l o)).

(** The lower bound of a listener's port; the server port is excused from
    it when a UDS name is set. *)
Definition not_reserved (l : Listener) (o : ProxyRunOptions) : option ValidateError :=
  match l with
  | ServerListener =>
      violated ((ServerPort o <? 1024) && str_eq (UdsName o) "")
        (ErrReservedPort ServerListener (ServerPort o))
  | _ => violated (port_of l o <? 1024) (ErrReservedPort l (port_of l o))
  end.

Definition listeners : list Listener :=
  [ServerListener; AgentListener; AdminListener; HealthListener].

(** The port checks as the code makes them: every upper bound, then every
    lower bound. *)
Definition port_ranges (o : ProxyRunOptions) : list (option ValidateError) :=
  map (fun l => not_ephemeral l o) listeners ++ map (fun l => not_reserved l o) listeners.

Definition profiling (o : ProxyRunOptions) : option ValidateError :=
  violated (EnableContentionProfiling o && negb (EnableProfiling o)) ErrContentionProfiling.

Definition service_account_auth (o : ProxyRunOptions) : list (option ValidateError) :=
  [ violated (serviceAccountAuth o && str_ne (ClusterCaCert o) "") ErrAuthClusterCaCert;
    violated (serviceAccountAuth o && str_eq (AgentNamespace o) "") ErrAgentNamespaceEmpty;
    violated (serviceAccountAuth o && str_eq (AgentServiceAccount o) "")
      ErrAgentServiceAccountEmpty;
    violated (serviceAccountAuth o && str_eq (AuthenticationAudience o) "")
      ErrAuthenticationAudienceEmpty ].

Definition kubeconfig (E : Env) (o : ProxyRunOptions) : option ValidateError :=
  file_exists E (KubeconfigPath o) ErrCheckingKubeconfigPath.

Definition proxy_strategies (E : Env) (o : ProxyRunOptions) : list (option ValidateError) :=
  [ violated (Nat.eqb (String.length (ProxyStrategies o)) 0) ErrProxyStrategiesEmpty;
    match ParseProxyStrategies E (ProxyStrategies o) with
    | inl err => Some (ErrInvalidProxyStrategies err)
    | inr _ => None
    end ].

Definition channel_size (o : ProxyRunOptions) : option ValidateError :=
  violated (XfrChannelSize o <=? 0) (ErrChannelSize (XfrChannelSize o)).

(** The first requested cipher suite that the allow-list lacks. *)
Fixpoint first_unsupported (accepted : gmap string Z) (l : list string)
    : option ValidateError :=
  match l with
  | [] => None
  | cipher :: l' =>
      match accepted !! cipher with
      | Some _ => first_unsupported accepted l'
      | None => Some (ErrCipherSuite cipher)
      end
  end.

Definition cipher_suites (E : Env) (o : ProxyRunOptions) : option ValidateError :=
  first_unsupported (GetAcceptedCiphers E) (CipherSuites o).

Definition lease_label (E : Env) (o : ProxyRunOptions) : option ValidateError :=
  if EnableLeaseController o then
    match ParseLabels E (LeaseLabel o) with
    | inl err => Some (ErrLeaseLabel err)
    | inr _ => None
    end
  else None.

(** Everything that comes before, and everything that comes after, the
    port checks. *)
Definition before_ports (E : Env) (o : ProxyRunOptions) : list (option ValidateError) :=
  frontend_tls E o ++ backend_tls E o ++ [mode_enum o] ++ uds_exclusivity o.

Definition after_ports (E : Env) (o : ProxyRunOptions) : list (option ValidateError) :=
  [profiling o] ++ service_account_auth o ++ [kubeconfig E o] ++ proxy_strategies E o
  ++ [channel_size o] ++ [cipher_suites E o] ++ [lease_label E o].

(** The order [Validate] follows. *)
Definition validate_order (E : Env) (o : ProxyRunOptions) : list (option ValidateError) :=
  before_ports E o ++ port_ranges o ++ after_ports E o.

(** The port checks listener by listener: the whole range of one listener
    before the next listener is looked at. *)
Definition port_ranges_by_listener (o : ProxyRunOptions) : list (option ValidateError) :=
  flat_map (fun l => [not_ephemeral l o; not_reserved l o]) listeners.

(** The order with the port checks taken listener by listener. *)
Definition listener_order (E : Env) (o : ProxyRunOptions) : list (option ValidateError) :=
  before_ports E o ++ port_ranges_by_listener o ++ after_ports E o.

(** ** Building configurations

    What the flag parser does to single fields, for stating how the result
    of [Validate] depends on them. *)

(** The port of listener [l] set to [p]. *)
Definition set_port (l : Listener) (p : Z) (o : ProxyRunOptions) : ProxyRunOptions :=
  {| ServerCert := ServerCert o; ServerKey := ServerKey o;
     ServerCaCert := ServerCaCert o; ClusterCert := ClusterCert o;
     ClusterKey := ClusterKey o; ClusterCaCert := ClusterCaCert o; Mode := Mode o;
     UdsName := UdsName o; DeleteUDSFile := DeleteUDSFile o;
     ServerPort := (match l with ServerListener => p | _ => ServerPort o end);
     ServerBindAddress := ServerBindAddress o;
     AgentPort := (match l with AgentListener => p | _ => AgentPort o end);
     AgentBindAddress := AgentBindAddress o;
     AdminPort := (match l with AdminListener => p | _ => AdminPort o end);
     AdminBindAddress := AdminBindAddress o;
     HealthPort := (match l with HealthListener => p | _ => HealthPort o end);
     HealthBindAddress := HealthBindAddress o; KeepaliveTime := KeepaliveTime o;
     FrontendKeepaliveTime := FrontendKeepaliveTime o;
     EnableProfiling := EnableProfiling o;
     EnableContentionProfiling := EnableContentionProfiling o; ServerID := ServerID o;
     ServerCount := ServerCount o; AgentNamespace := AgentNamespace o;
     AgentServiceAccount := AgentServiceAccount o;
     AuthenticationAudience := AuthenticationAudience o;
     KubeconfigPath := KubeconfigPath o; KubeconfigQPS := KubeconfigQPS o;
     KubeconfigBurst := KubeconfigBurst o; APIContentType := APIContentType o;
     ProxyStrategies := ProxyStrategies o; CipherSuites := CipherSuites o;
     XfrChannelSize := XfrChannelSize o;
     EnableLeaseController := EnableLeaseController o;
     LeaseNamespace := LeaseNamespace o; LeaseLabel := LeaseLabel o;
     NeedsKubernetesClient := NeedsKubernetesClient o |}.

(** [--uds-name]. *)
Definition set_UdsName (name : string) (o : ProxyRunOptions) : ProxyRunOptions :=
  {| ServerCert := ServerCert o; ServerKey := ServerKey o;
     ServerCaCert := ServerCaCert o; ClusterCert := ClusterCert o;
     ClusterKey := ClusterKey o; ClusterCaCert := ClusterCaCert o; Mode := Mode o;
     UdsName := name; DeleteUDSFile := DeleteUDSFile o; ServerPort := ServerPort o;
     ServerBindAddress := ServerBindAddress o; AgentPort := AgentPort o;
     AgentBindAddress := AgentBindAddress o; AdminPort := AdminPort o;
     AdminBindAddress := AdminBindAddress o; HealthPort := HealthPort o;
     HealthBindAddress := HealthBindAddress o; KeepaliveTime := KeepaliveTime o;
     FrontendKeepaliveTime := FrontendKeepaliveTime o;
     EnableProfiling := EnableProfiling o;
     EnableContentionProfiling := EnableContentionProfiling o; ServerID := ServerID o;
     ServerCount := ServerCount o; AgentNamespace := AgentNamespace o;
     AgentServiceAccount := AgentServiceAccount o;
     AuthenticationAudience := AuthenticationAudience o;
     KubeconfigPath := KubeconfigPath o; KubeconfigQPS := KubeconfigQPS o;
     KubeconfigBurst := KubeconfigBurst o; APIContentType := APIContentType o;
     ProxyStrategies := ProxyStrategies o; CipherSuites := CipherSuites o;
     XfrChannelSize := XfrChannelSize o;
     EnableLeaseController := EnableLeaseController o;
     LeaseNamespace := LeaseNamespace o; LeaseLabel := LeaseLabel o;
     NeedsKubernetesClient := NeedsKubernetesClient o |}.

(** [--server-cert], [--server-key] and [--server-ca-cert]. *)
Definition set_frontend_tls (cert key ca : string) (o : ProxyRunOptions) : ProxyRunOptions :=
  {| ServerCert := cert; ServerKey := key; ServerCaCert := ca;
     ClusterCert := ClusterCert o; ClusterKey := ClusterKey o;
     ClusterCaCert := ClusterCaCert o; Mode := Mode o; UdsName := UdsName o;
     DeleteUDSFile := DeleteUDSFile o; ServerPort := ServerPort o;
     ServerBindAddress := ServerBindAddress o; AgentPort := AgentPort o;
     AgentBindAddress := AgentBindAddress o; AdminPort := AdminPort o;
     AdminBindAddress := AdminBindAddress o; HealthPort := HealthPort o;
     HealthBindAddress := HealthBindAddress o; KeepaliveTime := KeepaliveTime o;
     FrontendKeepaliveTime := FrontendKeepaliveTime o;
     EnableProfiling := EnableProfiling o;
     EnableContentionProfiling := EnableContentionProfiling o; ServerID := ServerID o;
     ServerCount := ServerCount o; AgentNamespace := AgentNamespace o;
     AgentServiceAccount := AgentServiceAccount o;
     AuthenticationAudience := AuthenticationAudience o;
     KubeconfigPath := KubeconfigPath o; KubeconfigQPS := KubeconfigQPS o;
     KubeconfigBurst := KubeconfigBurst o; APIContentType := APIContentType o;
     ProxyStrategies := ProxyStrategies o; CipherSuites := CipherSuites o;
     XfrChannelSize := XfrChannelSize o;
     EnableLeaseController := EnableLeaseController o;
     LeaseNamespace := LeaseNamespace o; LeaseLabel := LeaseLabel o;
     NeedsKubernetesClient := NeedsKubernetesClient o |}.

(** [--cluster-cert], [--cluster-key] and [--cluster-ca-cert]. *)
Definition set_backend_tls (cert key ca : string) (o : ProxyRunOptions) : ProxyRunOptions :=
  {| ServerCert := ServerCert o; ServerKey := ServerKey o;
     ServerCaCert := ServerCaCert o; ClusterCert := cert; ClusterKey := key;
     ClusterCaCert := ca; Mode := Mode o; UdsName := UdsName o;
     DeleteUDSFile := DeleteUDSFile o; ServerPort := ServerPort o;
     ServerBindAddress := ServerBindAddress o; AgentPort := AgentPort o;
     AgentBindAddress := AgentBindAddress o; AdminPort := AdminPort o;
     AdminBindAddress := AdminBindAddress o; HealthPort := HealthPort o;
     HealthBindAddress := HealthBindAddress o; KeepaliveTime := KeepaliveTime o;
     FrontendKeepaliveTime := FrontendKeepaliveTime o;
     EnableProfiling := EnableProfiling o;
     EnableContentionProfiling := EnableContentionProfiling o; ServerID := ServerID o;
     ServerCount := ServerCount o; AgentNamespace := AgentNamespace o;
     AgentServiceAccount := AgentServiceAccount o;
     AuthenticationAudience := AuthenticationAudience o;
     KubeconfigPath := KubeconfigPath o; KubeconfigQPS := KubeconfigQPS o;
     KubeconfigBurst := KubeconfigBurst o; APIContentType := APIContentType o;
     ProxyStrategies := ProxyStrategies o; CipherSuites := CipherSuites o;
     XfrChannelSize := XfrChannelSize o;
     EnableLeaseController := EnableLeaseController o;
     LeaseNamespace := LeaseNamespace o; LeaseLabel := LeaseLabel o;
     NeedsKubernetesClient := NeedsKubernetesClient o |}.

(** [--agent-namespace], [--agent-service-account] and [--authentication-audience]. *)
Definition set_agent_auth (ns sa aud : string) (o : ProxyRunOptions) : ProxyRunOptions :=
  {| ServerCert := ServerCert o; ServerKey := ServerKey o;
     ServerCaCert := ServerCaCert o; ClusterCert := ClusterCert o;
     ClusterKey := ClusterKey o; ClusterCaCert := ClusterCaCert o; Mode := Mode o;
     UdsName := UdsName o; DeleteUDSFile := DeleteUDSFile o;
     ServerPort := ServerPort o; ServerBindAddress := ServerBindAddress o;
     AgentPort := AgentPort o; AgentBindAddress := AgentBindAddress o;
     AdminPort := AdminPort o; AdminBindAddress := AdminBindAddress o;
     HealthPort := HealthPort o; HealthBindAddress := HealthBindAddress o;
     KeepaliveTime := KeepaliveTime o;
     FrontendKeepaliveTime := FrontendKeepaliveTime o;
     EnableProfiling := EnableProfiling o;
     EnableContentionProfiling := EnableContentionProfiling o; ServerID := ServerID o;
     ServerCount := ServerCount o; AgentNamespace := ns; AgentServiceAccount := sa;
     AuthenticationAudience := aud; KubeconfigPath := KubeconfigPath o;
     KubeconfigQPS := KubeconfigQPS o; KubeconfigBurst := KubeconfigBurst o;
     APIContentType := APIContentType o; ProxyStrategies := ProxyStrategies o;
     CipherSuites := CipherSuites o; XfrChannelSize := XfrChannelSize o;
     EnableLeaseController := EnableLeaseController o;
     LeaseNamespace := LeaseNamespace o; LeaseLabel := LeaseLabel o;
     NeedsKubernetesClient := NeedsKubernetesClient o |}.

(** [--enable-lease-controller] and [--lease-label]. *)
Definition set_lease (enable : bool) (label : string) (o : ProxyRunOptions) : ProxyRunOptions :=
  {| ServerCert := ServerCert o; ServerKey := ServerKey o;
     ServerCaCert := ServerCaCert o; ClusterCert := ClusterCert o;
     ClusterKey := ClusterKey o; ClusterCaCert := ClusterCaCert o; Mode := Mode o;
     UdsName := UdsName o; DeleteUDSFile := DeleteUDSFile o;
     ServerPort := ServerPort o; ServerBindAddress := ServerBindAddress o;
     AgentPort := AgentPort o; AgentBindAddress := AgentBindAddress o;
     AdminPort := AdminPort o; AdminBindAddress := AdminBindAddress o;
     HealthPort := HealthPort o; HealthBindAddress := HealthBindAddress o;
     KeepaliveTime := KeepaliveTime o;
     FrontendKeepaliveTime := FrontendKeepaliveTime o;
     EnableProfiling := EnableProfiling o;
     EnableContentionProfiling := EnableContentionProfiling o; ServerID := ServerID o;
     ServerCount := ServerCount o; AgentNamespace := AgentNamespace o;
     AgentServiceAccount := AgentServiceAccount o;
     AuthenticationAudience := AuthenticationAudience o;
     KubeconfigPath := KubeconfigPath o; KubeconfigQPS := KubeconfigQPS o;
     KubeconfigBurst := KubeconfigBurst o; APIContentType := APIContentType o;
     ProxyStrategies := ProxyStrategies o; CipherSuites := CipherSuites o;
     XfrChannelSize := XfrChannelSize o; EnableLeaseController := enable;
     LeaseNamespace := LeaseNamespace o; LeaseLabel := label;
     NeedsKubernetesClient := NeedsKubernetesClient o |}.

(** [--lease-label] alone. *)
Definition set_LeaseLabel (label : string) (o : ProxyRunOptions) : ProxyRunOptions :=
  {| ServerCert := ServerCert o; ServerKey := ServerKey o;
     ServerCaCert := ServerCaCert o; ClusterCert := ClusterCert o;
     ClusterKey := ClusterKey o; ClusterCaCert := ClusterCaCert o; Mode := Mode o;
     UdsName := UdsName o; DeleteUDSFile := DeleteUDSFile o;
     ServerPort := ServerPort o; ServerBindAddress := ServerBindAddress o;
     AgentPort := AgentPort o; AgentBindAddress := AgentBindAddress o;
     AdminPort := AdminPort o; AdminBindAddress := AdminBindAddress o;
     HealthPort := HealthPort o; HealthBindAddress := HealthBindAddress o;
     KeepaliveTime := KeepaliveTime o;
     FrontendKeepaliveTime := FrontendKeepaliveTime o;
     EnableProfiling := EnableProfiling o;
     EnableContentionProfiling := EnableContentionProfiling o; ServerID := ServerID o;
     ServerCount := ServerCount o; AgentNamespace := AgentNamespace o;
     AgentServiceAccount := AgentServiceAccount o;
     AuthenticationAudience := AuthenticationAudience o;
     KubeconfigPath := KubeconfigPath o; KubeconfigQPS := KubeconfigQPS o;
     KubeconfigBurst := KubeconfigBurst o; APIContentType := APIContentType o;
     ProxyStrategies := ProxyStrategies o; CipherSuites := CipherSuites o;
     XfrChannelSize := XfrChannelSize o;
     EnableLeaseController := EnableLeaseController o;
     LeaseNamespace := LeaseNamespace o; LeaseLabel := label;
     NeedsKubernetesClient := NeedsKubernetesClient o |}.

(** Environments that differ from [E] in one collaborator. *)
Definition set_ParseLabels (f : string -> Result (list (string * string))) (E : Env) : Env :=
  {| os_Stat := os_Stat E; os_Getenv := os_Getenv E; uuid_New := uuid_New E;
     ParseProxyStrategies := ParseProxyStrategies E;
     GetAcceptedCiphers := GetAcceptedCiphers E; ParseLabels := f |}.

(** The file system of [E] with every [os.Stat] failure other than
    does-not-exist turned into success. *)
Definition forgiving (E : Env) : Env :=
  {| os_Stat := fun path =>
       if os_IsNotExist (os_Stat E path) then os_Stat E path else None;
     os_Getenv := os_Getenv E; uuid_New := uuid_New E;
     ParseProxyStrategies := ParseProxyStrategies E;
     GetAcceptedCiphers := GetAcceptedCiphers E; ParseLabels := ParseLabels E |}.

(** ** Vocabulary of the properties *)

Definition succeeds (E : Env) (o : ProxyRunOptions) : Prop :=
  validate_error E o = None.

Definition fails (E : Env) (o : ProxyRunOptions) : Prop :=
  exists e, validate_error E o = Some e.

(** The ports [Validate] lets through for listener [l], given the rest of
    the configuration. *)
Definition accepted_port (l : Listener) (o : ProxyRunOptions) (p : Z) : Prop :=
  match l with
  | ServerListener => if str_ne (UdsName o) "" then p = 0 else 1024 <= p <= 49151
  | _ => 1024 <= p <= 49151
  end.

(** The two TLS roles and their certificate and key. *)
Inductive Role : Set := Frontend | Backend.

Definition cert_of (r : Role) (o : ProxyRunOptions) : string :=
  match r with Frontend => ServerCert o | Backend => ClusterCert o end.

Definition key_of (r : Role) (o : ProxyRunOptions) : string :=
  match r with Frontend => ServerKey o | Backend => ClusterKey o end.

(** The errors of a role's cert/key pairing check. *)
Definition is_pairing_error (r : Role) (e : ValidateError) : bool :=
  match r, e with
  | Frontend, ErrServerCertEmpty _ | Frontend, ErrServerKeyEmpty _ => true
  | Backend, ErrClusterCertEmpty _ | Backend, ErrClusterKeyEmpty _ => true
  | _, _ => false
  end.

(** How many of agent namespace, agent service account and authentication
    audience are set. *)
Definition auth_fields_set (o : ProxyRunOptions) : nat :=
  (Nat.b2n (str_ne (AgentNamespace o) "") + Nat.b2n (str_ne (AgentServiceAccount o) "")
   + Nat.b2n (str_ne (AuthenticationAudience o) ""))%nat.

(** The seven paths whose existence [Validate] checks. *)
Inductive PathField : Set :=
  | ServerKeyPath | ServerCertPath | ServerCaCertPath
  | ClusterKeyPath | ClusterCertPath | ClusterCaCertPath
  | KubeconfigFile.

Definition path_of (f : PathField) (o : ProxyRunOptions) : string :=
  match f with
  | ServerKeyPath => ServerKey o
  | ServerCertPath => ServerCert o
  | ServerCaCertPath => ServerCaCert o
  | ClusterKeyPath => ClusterKey o
  | ClusterCertPath => ClusterCert o
  | ClusterCaCertPath => ClusterCaCert o
  | KubeconfigFile => KubeconfigPath o
  end.

(** The error of the existence check of each path. *)
Definition existence_error (f : PathField) : string -> GoError -> ValidateError :=
  match f with
  | ServerKeyPath => ErrCheckingServerKey
  | ServerCertPath => ErrCheckingServerCert
  | ServerCaCertPath => ErrCheckingServerCaCert
  | ClusterKeyPath => ErrCheckingClusterKey
  | ClusterCertPath => ErrCheckingClusterCert
  | ClusterCaCertPath => ErrCheckingClusterCaCert
  | KubeconfigFile => ErrCheckingKubeconfigPath
  end.

(** ** Reading method bodies as constraint lists *)

(** A body [m] that never writes and fails exactly when [c] names an error. *)
Definition checks (m : M unit) (c : option ValidateError) : Prop :=
  forall s, m s = (s, match c with Some e => inl e | None => inr tt end).

(** A body [m] that runs the constraints of [l] in order and, when none is
    violated, goes on as [fin]. *)
Definition runs (m : M unit) (l : list (option ValidateError)) (fin : M unit) : Prop :=
  forall s, m s = match first_violated l with
                  | Some e => (s, inl e)
                  | None => fin s
                  end.

(** ** A concrete environment

    A small world to run the definitions in: a file system with a few TLS
    files, one unreadable directory, and stand-ins for the collaborators
    of [pkg/]. *)

(** [strings.Split(s, sep)] for a one-character separator. *)
Fixpoint split_on (sep : ascii) (s : string) : list string :=
  match s with
  | EmptyString => [EmptyString]
  | String c s' =>
      if Ascii.eqb c sep then EmptyString :: split_on sep s'
      else match split_on sep s' with
           | [] => [String c EmptyString]
           | w :: ws => String c w :: ws
           end
  end.

Definition parse_strategy (s : string) : Result ProxyStrategy :=
  if String.eqb s "default" then inr ProxyStrategyDefault
  else if String.eqb s "destHost" then inr ProxyStrategyDestHost
  else if String.eqb s "defaultRoute" then inr ProxyStrategyDefaultRoute
  else inl ("unknown proxy strategy: " ++ s)%string.

Fixpoint parse_strategies (l : list string) : Result (list ProxyStrategy) :=
  match l with
  | [] => inr []
  | s :: l' =>
      match parse_strategy s with
      | inl err => inl err
      | inr ps =>
          match parse_strategies l' with
          | inl err => inl err
          | inr pss => inr (ps :: pss)
          end
      end
  end.

(** Modelled from the spec: [ParseProxyStrategies] of
    [pkg/server/proxystrategies], which is to reject unknown strategy
    names and empty input; the names are those of the flag's help text. *)
Definition spec_ParseProxyStrategies (s : string) : Result (list ProxyStrategy) :=
  parse_strategies (split_on "," s).

Fixpoint parse_label_pairs (l : list string) : Result (list (string * string)) :=
  match l with
  | [] => inr []
  | kv :: l' =>
      match split_on "=" kv with
      | [k; v] =>
          if String.eqb k "" then inl ("invalid label: " ++ kv)%string
          else match parse_label_pairs l' with
               | inl err => inl err
               | inr kvs => inr ((k, v) :: kvs)
               end
      | _ => inl ("invalid label: " ++ kv)%string
      end
  end.

(** A stand-in for [util.ParseLabels]: comma-separated [key=value] pairs
    with a non-empty key. *)
Definition sample_ParseLabels (s : string) : Result (list (string * string)) :=
  parse_label_pairs (split_on "," s).

(** A stand-in for [util.GetAcceptedCiphers]: three suites with their IDs. *)
Definition sample_ciphers : gmap string Z :=
  list_to_map
    [ ("TLS_ECDHE_RSA_WITH_AES_128_GCM_SHA256", 49199);
      ("TLS_ECDHE_RSA_WITH_AES_256_GCM_SHA384", 49200);
      ("TLS_ECDHE_ECDSA_WITH_AES_128_GCM_SHA256", 49195) ].

(** A file system: the files under /etc/tls exist, anything under /root/
    is refused with [EACCES], every other path is missing. *)
Definition sample_Stat (path : string) : GoError :=
  if String.prefix "/etc/tls/" path then None
  else if String.prefix "/root/" path then Some EACCES
  else Some ENOENT.

Definition sample_env : Env :=
  {| os_Stat := sample_Stat;
     os_Getenv := fun _ => "";
     uuid_New := "6ba7b810-9dad-11d1-80b4-00c04fd430c8";
     ParseProxyStrategies := spec_ParseProxyStrategies;
     GetAcceptedCiphers := sample_ciphers;
     ParseLabels := sample_ParseLabels |}.

(** ** Fields behind pointers

    [Flags] hands pflag the address of a field, [&o.F], and pflag reads and
    writes the struct through it. *)

(** [&o.F], one per field of the struct. *)
Inductive FieldPtr : Set :=
  | P_ServerCert
  | P_ServerKey
  | P_ServerCaCert
  | P_ClusterCert
  | P_ClusterKey
  | P_ClusterCaCert
  | P_Mode
  | P_UdsName
  | P_DeleteUDSFile
  | P_ServerPort
  | P_ServerBindAddress
  | P_AgentPort
  | P_AgentBindAddress
  | P_AdminPort
  | P_AdminBindAddress
  | P_HealthPort
  | P_HealthBindAddress
  | P_KeepaliveTime
  | P_FrontendKeepaliveTime
  | P_EnableProfiling
  | P_EnableContentionProfiling
  | P_ServerID
  | P_ServerCount
  | P_AgentNamespace
  | P_AgentServiceAccount
  | P_AuthenticationAudience
  | P_KubeconfigPath
  | P_KubeconfigQPS
  | P_KubeconfigBurst
  | P_APIContentType
  | P_ProxyStrategies
  | P_CipherSuites
  | P_XfrChannelSize
  | P_EnableLeaseController
  | P_LeaseNamespace
  | P_LeaseLabel
  | P_NeedsKubernetesClient.

#[global] Instance FieldPtr_eq_dec : EqDecision FieldPtr.
Proof. solve_decision. Defined.

(** A value of one of the six types the fields have.  Durations are in
    nanoseconds, a [float32] is its bit pattern. *)
Inductive Value : Type :=
  | VString (s : string)
  | VBool (b : bool)
  | VInt (n : Z)
  | VDuration (d : Z)
  | VFloat32 (bits : Z)
  | VStringSlice (l : list string).

Definition as_string (v : Value) : option string :=
  match v with VString s => Some s | _ => None end.
Definition as_bool (v : Value) : option bool :=
  match v with VBool b => Some b | _ => None end.
Definition as_int (v : Value) : option Z :=
  match v with VInt n => Some n | _ => None end.
Definition as_duration (v : Value) : option Z :=
  match v with VDuration d => Some d | _ => None end.
Definition as_float32 (v : Value) : option Z :=
  match v with VFloat32 b => Some b | _ => None end.
Definition as_string_slice (v : Value) : option (list string) :=
  match v with VStringSlice l => Some l | _ => None end.

(** [*p]. *)
Definition load (p : FieldPtr) (o : ProxyRunOptions) : Value :=
  match p with
  | P_ServerCert => VString (ServerCert o)
  | P_ServerKey => VString (ServerKey o)
  | P_ServerCaCert => VString (ServerCaCert o)
  | P_ClusterCert => VString (ClusterCert o)
  | P_ClusterKey => VString (ClusterKey o)
  | P_ClusterCaCert => VString (ClusterCaCert o)
  | P_Mode => VString (Mode o)
  | P_UdsName => VString (UdsName o)
  | P_DeleteUDSFile => VBool (DeleteUDSFile o)
  | P_ServerPort => VInt (ServerPort o)
  | P_ServerBindAddress => VString (ServerBindAddress o)
  | P_AgentPort => VInt (AgentPort o)
  | P_AgentBindAddress => VString (AgentBindAddress o)
  | P_AdminPort => VInt (AdminPort o)
  | P_AdminBindAddress => VString (AdminBindAddress o)
  | P_HealthPort => VInt (HealthPort o)
  | P_HealthBindAddress => VString (HealthBindAddress o)
  | P_KeepaliveTime => VDuration (KeepaliveTime o)
  | P_FrontendKeepaliveTime => VDuration (FrontendKeepaliveTime o)
  | P_EnableProfiling => VBool (EnableProfiling o)
  | P_EnableContentionProfiling => VBool (EnableContentionProfiling o)
  | P_ServerID => VString (ServerID o)
  | P_ServerCount => VInt (ServerCount o)
  | P_AgentNamespace => VString (AgentNamespace o)
  | P_AgentServiceAccount => VString (AgentServiceAccount o)
  | P_AuthenticationAudience => VString (AuthenticationAudience o)
  | P_KubeconfigPath => VString (KubeconfigPath o)
  | P_KubeconfigQPS => VFloat32 (KubeconfigQPS o)
  | P_KubeconfigBurst => VInt (KubeconfigBurst o)
  | P_APIContentType => VString (APIContentType o)
  | P_ProxyStrategies => VString (ProxyStrategies o)
  | P_CipherSuites => VStringSlice (CipherSuites o)
  | P_XfrChannelSize => VInt (XfrChannelSize o)
  | P_EnableLeaseController => VBool (EnableLeaseController o)
  | P_LeaseNamespace => VString (LeaseNamespace o)
  | P_LeaseLabel => VString (LeaseLabel o)
  | P_NeedsKubernetesClient => VBool (NeedsKubernetesClient o)
  end.

(** The field at [q] after [*p = v]: the new value when [p] is [q] and [v]
    has the field's type (Go's type checker rules the other case out), the
    old one otherwise. *)
Definition written {A} (p q : FieldPtr) (v : option A) (old : A) : A :=
  if decide (p = q) then match v with Some new => new | None => old end else old.

(** [*p = v]. *)
Definition store (p : FieldPtr) (v : Value) (o : ProxyRunOptions) : ProxyRunOptions :=
  {| ServerCert := written p P_ServerCert (as_string v) (ServerCert o);
     ServerKey := written p P_ServerKey (as_string v) (ServerKey o);
     ServerCaCert := written p P_ServerCaCert (as_string v) (ServerCaCert o);
     ClusterCert := written p P_ClusterCert (as_string v) (ClusterCert o);
     ClusterKey := written p P_ClusterKey (as_string v) (ClusterKey o);
     ClusterCaCert := written p P_ClusterCaCert (as_string v) (ClusterCaCert o);
     Mode := written p P_Mode (as_string v) (Mode o);
     UdsName := written p P_UdsName (as_string v) (UdsName o);
     DeleteUDSFile := written p P_DeleteUDSFile (as_bool v) (DeleteUDSFile o);
     ServerPort := written p P_ServerPort (as_int v) (ServerPort o);
     ServerBindAddress := written p P_ServerBindAddress (as_string v) (ServerBindAddress o);
     AgentPort := written p P_AgentPort (as_int v) (AgentPort o);
     AgentBindAddress := written p P_AgentBindAddress (as_string v) (AgentBindAddress o);
     AdminPort := written p P_AdminPort (as_int v) (AdminPort o);
     AdminBindAddress := written p P_AdminBindAddress (as_string v) (AdminBindAddress o);
     HealthPort := written p P_HealthPort (as_int v) (HealthPort o);
     HealthBindAddress := written p P_HealthBindAddress (as_string v) (HealthBindAddress o);
     KeepaliveTime := written p P_KeepaliveTime (as_duration v) (KeepaliveTime o);
     FrontendKeepaliveTime := written p P_FrontendKeepaliveTime (as_duration v) (FrontendKeepaliveTime o);
     EnableProfiling := written p P_EnableProfiling (as_bool v) (EnableProfiling o);
     EnableContentionProfiling := written p P_EnableContentionProfiling (as_bool v) (EnableContentionProfiling o);
     ServerID := written p P_ServerID (as_string v) (ServerID o);
     ServerCount := written p P_ServerCount (as_int v) (ServerCount o);
     AgentNamespace := written p P_AgentNamespace (as_string v) (AgentNamespace o);
     AgentServiceAccount := written p P_AgentServiceAccount (as_string v) (AgentServiceAccount o);
     AuthenticationAudience := written p P_AuthenticationAudience (as_string v) (AuthenticationAudience o);
     KubeconfigPath := written p P_KubeconfigPath (as_string v) (KubeconfigPath o);
     KubeconfigQPS := written p P_KubeconfigQPS (as_float32 v) (KubeconfigQPS o);
     KubeconfigBurst := written p P_KubeconfigBurst (as_int v) (KubeconfigBurst o);
     APIContentType := written p P_APIContentType (as_string v) (APIContentType o);
     ProxyStrategies := written p P_ProxyStrategies (as_string v) (ProxyStrategies o);
     CipherSuites := written p P_CipherSuites (as_string_slice v) (CipherSuites o);
     XfrChannelSize := written p P_XfrChannelSize (as_int v) (XfrChannelSize o);
     EnableLeaseController := written p P_EnableLeaseController (as_bool v) (EnableLeaseController o);
     LeaseNamespace := written p P_LeaseNamespace (as_string v) (LeaseNamespace o);
     LeaseLabel := written p P_LeaseLabel (as_string v) (LeaseLabel o);
     NeedsKubernetesClient := written p P_NeedsKubernetesClient (as_bool v) (NeedsKubernetesClient o) |}.

(** ** The flag set *)

(** The double quote and the newline inside Go string literals. *)
Definition dq : string := String "034"%char EmptyString.
Definition nl : string := String "010"%char EmptyString.

(** A [pflag.Flag]: its name, help text, the field its value writes to
    ([None] for a variable pflag allocates itself), the default value, the
    deprecation message (empty when not deprecated) and whether the help
    output hides it. *)
Record Flag : Type := {
  Name : string;
  Usage : string;
  Target : option FieldPtr;
  DefValue : Value;
  Deprecated : string;
  Hidden : bool
}.

Inductive ErrorHandling : Set := ContinueOnError | ExitOnError | PanicOnError.

(** A [pflag.FlagSet]: its name, its error handling and the flags in the
    order of their registration. *)
Record FlagSet : Type := {
  fs_name : string;
  fs_errorHandling : ErrorHandling;
  formal : list Flag
}.

Definition NewFlagSet (name : string) (eh : ErrorHandling) : FlagSet :=
  {| fs_name := name; fs_errorHandling := eh; formal := [] |}.

(** [FlagSet.Lookup]. *)
Definition FlagSet_Lookup (name : string) (fs : FlagSet) : option Flag :=
  find (fun fl => String.eqb (Name fl) name) (formal fs).

(** A step of [Flags]: it runs on the struct and the flag set, and yields
    [None] when pflag panics. *)
Definition Registration : Type :=
  ProxyRunOptions * FlagSet -> option (ProxyRunOptions * FlagSet).

(** [FlagSet.VarP] behind the typed registrations: the default is stored
    through the pointer, and a name that is already registered makes pflag
    panic ("flag redefined"). *)
Definition Var (target : option FieldPtr) (name : string)
    (value : ProxyRunOptions -> Value) (usage : string) : Registration :=
  fun st =>
    let (o, fs) := st in
    let v := value o in
    match FlagSet_Lookup name fs with
    | Some _ => None
    | None =>
        Some (match target with Some p => store p v o | None => o end,
              {| fs_name := fs_name fs; fs_errorHandling := fs_errorHandling fs;
                 formal := formal fs ++
                   [{| Name := name; Usage := usage; Target := target; DefValue := v;
                       Deprecated := ""; Hidden := false |}] |})
    end.

Definition StringVar (p : FieldPtr) (name : string) (value : ProxyRunOptions -> string)
    (usage : string) : Registration :=
  Var (Some p) name (fun o => VString (value o)) usage.
Definition BoolVar (p : FieldPtr) (name : string) (value : ProxyRunOptions -> bool)
    (usage : string) : Registration :=
  Var (Some p) name (fun o => VBool (value o)) usage.
Definition IntVar (p : FieldPtr) (name : string) (value : ProxyRunOptions -> Z)
    (usage : string) : Registration :=
  Var (Some p) name (fun o => VInt (value o)) usage.
Definition DurationVar (p : FieldPtr) (name : string) (value : ProxyRunOptions -> Z)
    (usage : string) : Registration :=
  Var (Some p) name (fun o => VDuration (value o)) usage.
Definition Float32Var (p : FieldPtr) (name : string) (value : ProxyRunOptions -> Z)
    (usage : string) : Registration :=
  Var (Some p) name (fun o => VFloat32 (value o)) usage.
Definition StringSliceVar (p : FieldPtr) (name : string)
    (value : ProxyRunOptions -> list string) (usage : string) : Registration :=
  Var (Some p) name (fun o => VStringSlice (value o)) usage.

(** [FlagSet.Bool]: a flag whose variable pflag allocates. *)
Definition Bool_ (name : string) (value : bool) (usage : string) : Registration :=
  Var None name (fun _ => VBool value) usage.

(** [FlagSet.MarkDeprecated]: an error when the flag is unknown or the
    message is empty; otherwise the flag gets the message and is hidden. *)
Definition MarkDeprecated (name usageMessage : string) (fs : FlagSet)
    : FlagSet * option string :=
  match FlagSet_Lookup name fs with
  | None => (fs, Some ("flag " ++ name ++ " does not exist")%string)
  | Some _ =>
      if String.eqb usageMessage "" then
        (fs, Some ("deprecated message for flag " ++ name ++ " must be set")%string)
      else
        ({| fs_name := fs_name fs; fs_errorHandling := fs_errorHandling fs;
            formal :=
              map (fun fl =>
                     if String.eqb (Name fl) name then
                       {| Name := Name fl; Usage := Usage fl; Target := Target fl;
                          DefValue := DefValue fl; Deprecated := usageMessage;
                          Hidden := true |}
                     else fl) (formal fs) |}, None)
  end.

(** The registrations of a list, one after the other. *)
Fixpoint register (rs : list Registration) (st : ProxyRunOptions * FlagSet)
    : option (ProxyRunOptions * FlagSet) :=
  match rs with
  | [] => Some st
  | r :: rs' =>
      match r st with
      | Some st' => register rs' st'
      | None => None
      end
  end.

(** [func (o *ProxyRunOptions) Flags() *pflag.FlagSet]: the struct after
    the call and the flag set it returns, or [None] when pflag panics.  The
    error of [MarkDeprecated] is dropped, as in the source. *)
Definition Flags (o : ProxyRunOptions) : option (ProxyRunOptions * FlagSet) :=
  let flags := NewFlagSet "proxy-server" ContinueOnError in
  match
    register
      [ StringVar P_ServerCert "server-cert" ServerCert
        "If non-empty secure communication with this cert.";
        StringVar P_ServerKey "server-key" ServerKey
        "If non-empty secure communication with this key.";
        StringVar P_ServerCaCert "server-ca-cert" ServerCaCert
        "If non-empty the CA we use to validate KAS clients.";
        StringVar P_ClusterCert "cluster-cert" ClusterCert
        "If non-empty secure communication with this cert.";
        StringVar P_ClusterKey "cluster-key" ClusterKey
        "If non-empty secure communication with this key.";
        StringVar P_ClusterCaCert "cluster-ca-cert" ClusterCaCert
        "If non-empty the CA we use to validate Agent clients.";
        StringVar P_Mode "mode" Mode
        "mode can be either 'grpc' or 'http-connect'.";
        StringVar P_UdsName "uds-name" UdsName
        "uds-name should be empty for TCP traffic. For UDS set to its name.";
        BoolVar P_DeleteUDSFile "delete-existing-uds-file" DeleteUDSFile
        "If true and if file UdsName already exists, delete the file before listen on that UDS file. Default is true.";
        IntVar P_ServerPort "server-port" ServerPort
        "Port we listen for server connections on. Set to 0 for UDS.";
        StringVar P_ServerBindAddress "server-bind-address" ServerBindAddress
        "Bind address for server connections. If empty, we will bind to all interfaces.";
        IntVar P_AgentPort "agent-port" AgentPort
        "Port we listen for agent connections on.";
        StringVar P_AgentBindAddress "agent-bind-address" AgentBindAddress
        "Bind address for agent connections. If empty, we will bind to all interfaces.";
        IntVar P_AdminPort "admin-port" AdminPort
        "Port we listen for admin connections on.";
        StringVar P_AdminBindAddress "admin-bind-address" AdminBindAddress
        "Bind address for admin connections. If empty, we will bind to localhost.";
        IntVar P_HealthPort "health-port" HealthPort
        "Port we listen for health connections on.";
        StringVar P_HealthBindAddress "health-bind-address" HealthBindAddress
        "Bind address for health connections. If empty, we will bind to all interfaces.";
        DurationVar P_KeepaliveTime "keepalive-time" KeepaliveTime
        "Time for gRPC agent server keepalive.";
        DurationVar P_FrontendKeepaliveTime "frontend-keepalive-time" FrontendKeepaliveTime
        "Time for gRPC frontend server keepalive.";
        BoolVar P_EnableProfiling "enable-profiling" EnableProfiling
        "enable pprof at host:admin-port/debug/pprof";
        BoolVar P_EnableContentionProfiling "enable-contention-profiling" EnableContentionProfiling
        ("enable contention profiling at host:admin-port/debug/pprof/block. " ++ dq ++ "--enable-profiling" ++ dq ++ " must also be set.")%string;
        StringVar P_ServerID "server-id" ServerID
        "The unique ID of this server. Can also be set by the 'PROXY_SERVER_ID' environment variable.";
        IntVar P_ServerCount "server-count" ServerCount
        "The number of proxy server instances, should be 1 unless it is an HA server.";
        StringVar P_AgentNamespace "agent-namespace" AgentNamespace
        "Expected agent's namespace during agent authentication (used with agent-service-account, authentication-audience, kubeconfig).";
        StringVar P_AgentServiceAccount "agent-service-account" AgentServiceAccount
        "Expected agent's service account during agent authentication (used with agent-namespace, authentication-audience, kubeconfig).";
        StringVar P_KubeconfigPath "kubeconfig" KubeconfigPath
        "absolute path to the kubeconfig file (used with agent-namespace, agent-service-account, authentication-audience).";
        Float32Var P_KubeconfigQPS "kubeconfig-qps" KubeconfigQPS
        "Maximum client QPS (proxy server uses this client to authenticate agent tokens).";
        IntVar P_KubeconfigBurst "kubeconfig-burst" KubeconfigBurst
        "Maximum client burst (proxy server uses this client to authenticate agent tokens).";
        StringVar P_APIContentType "kube-api-content-type" APIContentType
        "Content type of requests sent to apiserver.";
        StringVar P_AuthenticationAudience "authentication-audience" AuthenticationAudience
        "Expected agent's token authentication audience (used with agent-namespace, agent-service-account, kubeconfig).";
        StringVar P_ProxyStrategies "proxy-strategies" ProxyStrategies
        "The list of proxy strategies used by the server to pick an agent/tunnel, available strategies are: default, destHost, defaultRoute.";
        StringSliceVar P_CipherSuites "cipher-suites" CipherSuites
        "The comma separated list of allowed cipher suites. Has no effect on TLS1.3. Empty means allow default list.";
        IntVar P_XfrChannelSize "xfr-channel-size" XfrChannelSize
        "The size of the two KNP server channels used in server for transferring data. One channel is for data coming from the Kubernetes API Server, and the other one is for data coming from the KNP agent.";
        BoolVar P_EnableLeaseController "enable-lease-controller" EnableLeaseController
        "Enable lease controller to publish and garbage collect proxy server leases.";
        StringVar P_LeaseNamespace "lease-namespace" LeaseNamespace
        "The namespace where lease objects are managed by the controller.";
        StringVar P_LeaseLabel "lease-label" LeaseLabel
        "The labels on which the lease objects are managed.";
        Bool_ "warn-on-channel-limit" true
        "This behavior is now thread safe and always on. This flag will be removed in a future release." ]
      (o, flags)
  with
  | Some (o', flags) =>
      let (flags, _) :=
        MarkDeprecated "warn-on-channel-limit"
          "This behavior is now thread safe and always on. This flag will be removed in a future release." flags in
      Some (o', flags)
  | None => None
  end.

(** What [FlagSet.Set] does to the struct once pflag has parsed the text
    of the argument into a value [v]: an unknown name or a value of another
    type than the flag's is an error, otherwise the value is stored through
    the flag's pointer. *)
Definition same_type (v w : Value) : bool :=
  match v, w with
  | VString _, VString _ | VBool _, VBool _ | VInt _, VInt _
  | VDuration _, VDuration _ | VFloat32 _, VFloat32 _
  | VStringSlice _, VStringSlice _ => true
  | _, _ => false
  end.

Definition SetValue (fs : FlagSet) (name : string) (v : Value) (o : ProxyRunOptions)
    : option ProxyRunOptions :=
  match FlagSet_Lookup name fs with
  | None => None
  | Some fl =>
      if same_type v (DefValue fl) then
        Some (match Target fl with Some p => store p v o | None => o end)
      else None
  end.

(** ** Print *)

(** A line handed to [klog.V(level).Infof]: the verbosity, the format and
    its argument. *)
Record LogLine : Type := {
  verbosity : Z;
  format : string;
  argument : Value
}.

Definition Infof (level : Z) (fmt : string) (arg : Value) : LogLine :=
  {| verbosity := level; format := fmt; argument := arg |}.

(** [func (o *ProxyRunOptions) Print()]: the lines it logs, in order. *)
Definition Print (o : ProxyRunOptions) : list LogLine :=
  [ Infof 1 ("ServerCert set to %q." ++ nl)%string (VString (ServerCert o));
    Infof 1 ("ServerKey set to %q." ++ nl)%string (VString (ServerKey o));
    Infof 1 ("ServerCACert set to %q." ++ nl)%string (VString (ServerCaCert o));
    Infof 1 ("ClusterCert set to %q." ++ nl)%string (VString (ClusterCert o));
    Infof 1 ("ClusterKey set to %q." ++ nl)%string (VString (ClusterKey o));
    Infof 1 ("ClusterCACert set to %q." ++ nl)%string (VString (ClusterCaCert o));
    Infof 1 ("Mode set to %q." ++ nl)%string (VString (Mode o));
    Infof 1 ("UDSName set to %q." ++ nl)%string (VString (UdsName o));
    Infof 1 ("DeleteUDSFile set to %v." ++ nl)%string (VBool (DeleteUDSFile o));
    Infof 1 ("Server port set to %d." ++ nl)%string (VInt (ServerPort o));
    Infof 1 ("Server bind address set to %q." ++ nl)%string (VString (ServerBindAddress o));
    Infof 1 ("Agent port set to %d." ++ nl)%string (VInt (AgentPort o));
    Infof 1 ("Agent bind address set to %q." ++ nl)%string (VString (AgentBindAddress o));
    Infof 1 ("Admin port set to %d." ++ nl)%string (VInt (AdminPort o));
    Infof 1 ("Admin bind address set to %q." ++ nl)%string (VString (AdminBindAddress o));
    Infof 1 ("Health port set to %d." ++ nl)%string (VInt (HealthPort o));
    Infof 1 ("Health bind address set to %q." ++ nl)%string (VString (HealthBindAddress o));
    Infof 1 ("Keepalive time set to %v." ++ nl)%string (VDuration (KeepaliveTime o));
    Infof 1 ("Frontend keepalive time set to %v." ++ nl)%string (VDuration (FrontendKeepaliveTime o));
    Infof 1 ("EnableProfiling set to %v." ++ nl)%string (VBool (EnableProfiling o));
    Infof 1 ("EnableContentionProfiling set to %v." ++ nl)%string (VBool (EnableContentionProfiling o));
    Infof 1 ("ServerID set to %s." ++ nl)%string (VString (ServerID o));
    Infof 1 ("ServerCount set to %d." ++ nl)%string (VInt (ServerCount o));
    Infof 1 ("AgentNamespace set to %q." ++ nl)%string (VString (AgentNamespace o));
    Infof 1 ("AgentServiceAccount set to %q." ++ nl)%string (VString (AgentServiceAccount o));
    Infof 1 ("AuthenticationAudience set to %q." ++ nl)%string (VString (AuthenticationAudience o));
    Infof 1 ("KubeconfigPath set to %q." ++ nl)%string (VString (KubeconfigPath o));
    Infof 1 ("KubeconfigQPS set to %f." ++ nl)%string (VFloat32 (KubeconfigQPS o));
    Infof 1 ("KubeconfigBurst set to %d." ++ nl)%string (VInt (KubeconfigBurst o));
    Infof 1 ("APIContentType set to %v." ++ nl)%string (VString (APIContentType o));
    Infof 1 ("ProxyStrategies set to %q." ++ nl)%string (VString (ProxyStrategies o));
    Infof 1 ("EnableLeaseController set to %v." ++ nl)%string (VBool (EnableLeaseController o));
    Infof 1 ("LeaseNamespace set to %s." ++ nl)%string (VString (LeaseNamespace o));
    Infof 1 ("LeaseLabel set to %s." ++ nl)%string (VString (LeaseLabel o));
    Infof 1 ("CipherSuites set to %q." ++ nl)%string (VStringSlice (CipherSuites o));
    Infof 1 ("XfrChannelSize set to %d." ++ nl)%string (VInt (XfrChannelSize o)) ].

(** ** Validity, declaratively *)

(** A TLS triple: cert and key set together, and no set path reported
    missing. *)
Definition tls_ok (E : Env) (cert key ca : string) : Prop :=
  (cert <> "" <-> key <> "")
  /\ (forall path, In path [key; cert; ca] -> path <> "" ->
      os_IsNotExist (os_Stat E path) = false).

Definition accepted_cipher (E : Env) (cipher : string) : Prop :=
  is_Some (GetAcceptedCiphers E !! cipher).

(** Everything [Validate] asks of a configuration. *)
Definition valid (E : Env) (o : ProxyRunOptions) : Prop :=
  tls_ok E (ServerCert o) (ServerKey o) (ServerCaCert o)
  /\ tls_ok E (ClusterCert o) (ClusterKey o) (ClusterCaCert o)
  /\ (Mode o = "grpc" \/ Mode o = "http-connect")
  /\ (UdsName o <> "" ->
      ServerPort o = 0 /\ ServerKey o = "" /\ ServerCert o = "" /\ ServerCaCert o = "")
  /\ (UdsName o = "" -> 1024 <= ServerPort o <= 49151)
  /\ 1024 <= AgentPort o <= 49151
  /\ 1024 <= AdminPort o <= 49151
  /\ 1024 <= HealthPort o <= 49151
  /\ (EnableContentionProfiling o = true -> EnableProfiling o = true)
  /\ ((AgentNamespace o = "" /\ AgentServiceAccount o = ""
       /\ AuthenticationAudience o = "")
      \/ (AgentNamespace o <> "" /\ AgentServiceAccount o <> ""
          /\ AuthenticationAudience o <> "" /\ ClusterCaCert o = ""))
  /\ (KubeconfigPath o <> "" -> os_IsNotExist (os_Stat E (KubeconfigPath o)) = false)
  /\ (ProxyStrategies o <> ""
      /\ exists strategies, ParseProxyStrategies E (ProxyStrategies o) = inr strategies)
  /\ 0 < XfrChannelSize o
  /\ Forall (accepted_cipher E) (CipherSuites o)
  /\ (EnableLeaseController o = true ->
      exists labels, ParseLabels E (LeaseLabel o) = inr labels).

(** What in the configuration and the environment an error tells of. *)
Definition cause (E : Env) (o : ProxyRunOptions) (e : ValidateError) : Prop :=
  match e with
  | ErrCheckingServerKey path err | ErrCheckingServerCert path err
  | ErrCheckingServerCaCert path err | ErrCheckingClusterKey path err
  | ErrCheckingClusterCert path err | ErrCheckingClusterCaCert path err
  | ErrCheckingKubeconfigPath path err =>
      path <> "" /\ err = os_Stat E path /\ os_IsNotExist err = true
      /\ match e with
         | ErrCheckingServerKey _ _ => path = ServerKey o
         | ErrCheckingServerCert _ _ => path = ServerCert o
         | ErrCheckingServerCaCert _ _ => path = ServerCaCert o
         | ErrCheckingClusterKey _ _ => path = ClusterKey o
         | ErrCheckingClusterCert _ _ => path = ClusterCert o
         | ErrCheckingClusterCaCert _ _ => path = ClusterCaCert o
         | _ => path = KubeconfigPath o
         end
  | ErrServerCertEmpty key => key = ServerKey o /\ key <> "" /\ ServerCert o = ""
  | ErrServerKeyEmpty cert => cert = ServerCert o /\ cert <> "" /\ ServerKey o = ""
  | ErrClusterCertEmpty key => key = ClusterKey o /\ key <> "" /\ ClusterCert o = ""
  | ErrClusterKeyEmpty cert => cert = ClusterCert o /\ cert <> "" /\ ClusterKey o = ""
  | ErrMode mode => mode = Mode o /\ mode <> "grpc" /\ mode <> "http-connect"
  | ErrUdsServerPort port => UdsName o <> "" /\ port = ServerPort o /\ port <> 0
  | ErrUdsServerKey => UdsName o <> "" /\ ServerKey o <> ""
  | ErrUdsServerCert => UdsName o <> "" /\ ServerCert o <> ""
  | ErrUdsServerCaCert => UdsName o <> "" /\ ServerCaCert o <> ""
  | ErrEphemeralPort l port => port = port_of l o /\ 49151 < port
  | ErrReservedPort l port =>
      port = port_of l o /\ port < 1024 /\ (l = ServerListener -> UdsName o = "")
  | ErrContentionProfiling =>
      EnableContentionProfiling o = true /\ EnableProfiling o = false
  | ErrAuthClusterCaCert => serviceAccountAuth o = true /\ ClusterCaCert o <> ""
  | ErrAgentNamespaceEmpty => serviceAccountAuth o = true /\ AgentNamespace o = ""
  | ErrAgentServiceAccountEmpty =>
      serviceAccountAuth o = true /\ AgentServiceAccount o = ""
  | ErrAuthenticationAudienceEmpty =>
      serviceAccountAuth o = true /\ AuthenticationAudience o = ""
  | ErrProxyStrategiesEmpty => ProxyStrategies o = ""
  | ErrInvalidProxyStrategies err =>
      ParseProxyStrategies E (ProxyStrategies o) = inl err
  | ErrChannelSize size => size = XfrChannelSize o /\ size <= 0
  | ErrCipherSuite cipher =>
      exists before after,
        CipherSuites o = before ++ cipher :: after
        /\ Forall (accepted_cipher E) before
        /\ GetAcceptedCiphers E !! cipher = None
  | ErrLeaseLabel err =>
      EnableLeaseController o = true /\ ParseLabels E (LeaseLabel o) = inl err
  end.

(** The fields [Validate] reads have the same values in [o1] and [o2]. *)
Definition validated_fields_agree (o1 o2 : ProxyRunOptions) : Prop :=
  ServerCert o1 = ServerCert o2 /\ ServerKey o1 = ServerKey o2
  /\ ServerCaCert o1 = ServerCaCert o2 /\ ClusterCert o1 = ClusterCert o2
  /\ ClusterKey o1 = ClusterKey o2 /\ ClusterCaCert o1 = ClusterCaCert o2
  /\ Mode o1 = Mode o2 /\ UdsName o1 = UdsName o2
  /\ ServerPort o1 = ServerPort o2 /\ AgentPort o1 = AgentPort o2
  /\ AdminPort o1 = AdminPort o2 /\ HealthPort o1 = HealthPort o2
  /\ EnableProfiling o1 = EnableProfiling o2
  /\ EnableContentionProfiling o1 = EnableContentionProfiling o2
  /\ AgentNamespace o1 = AgentNamespace o2
  /\ AgentServiceAccount o1 = AgentServiceAccount o2
  /\ AuthenticationAudience o1 = AuthenticationAudience o2
  /\ KubeconfigPath o1 = KubeconfigPath o2
  /\ ProxyStrategies o1 = ProxyStrategies o2
  /\ CipherSuites o1 = CipherSuites o2
  /\ XfrChannelSize o1 = XfrChannelSize o2
  /\ EnableLeaseController o1 = EnableLeaseController o2
  /\ LeaseLabel o1 = LeaseLabel o2.

(** The two environments answer alike wherever a run of [Validate] on [o]
    can ask: [os.Stat] on the paths that are set, the strategy parser on a
    non-empty strategy string, the cipher allow-list on the requested
    suites, the label parser when the lease controller is enabled. *)
Definition env_agree_on (E E' : Env) (o : ProxyRunOptions) : Prop :=
  (forall f, path_of f o <> "" -> os_Stat E (path_of f o) = os_Stat E' (path_of f o))
  /\ (ProxyStrategies o <> "" ->
      ParseProxyStrategies E (ProxyStrategies o) = ParseProxyStrategies E' (ProxyStrategies o))
  /\ (forall cipher, In cipher (CipherSuites o) ->
      GetAcceptedCiphers E !! cipher = GetAcceptedCiphers E' !! cipher)
  /\ (EnableLeaseController o = true ->
      ParseLabels E (LeaseLabel o) = ParseLabels E' (LeaseLabel o)).

(** A second, bare environment: no file exists, the server ID comes from
    the process environment, only the strategy string "default" parses,
    no cipher suite is accepted and no label parses. *)
Definition bare_env : Env :=
  {| os_Stat := fun _ => Some ENOENT;
     os_Getenv := fun name =>
       if String.eqb name "PROXY_SERVER_ID" then "konnectivity-server-0" else "";
     uuid_New := "";
     ParseProxyStrategies := fun s =>
       if String.eqb s "default" then inr [ProxyStrategyDefault]
       else inl "unknown proxy strategy";
     GetAcceptedCiphers := ∅;
     ParseLabels := fun _ => inl "labels are not supported" |}.

(** * Properties *)

(** ** From the method body to the constraint list *)

Section Checks.

Lemma first_violated_app l1 l2 :
  first_violated (l1 ++ l2) =
  match first_violated l1 with Some e => Some e | None => first_violated l2 end.
Proof.
  induction l1 as [|[e|] l1 IH]; simpl; auto.
Qed.

Lemma runs_done fin : runs fin [] fin.
Proof. intros s. reflexivity. Qed.

Lemma runs_seq m l1 k l2 fin :
  checks m (first_violated l1) -> runs k l2 fin -> runs (m ;; k) (l1 ++ l2) fin.
Proof.
  intros Hm Hk s. unfold bind. rewrite Hm, first_violated_app.
  destruct (first_violated l1); [reflexivity | apply Hk].
Qed.

Lemma runs_1 m x k l fin :
  checks m (first_violated [x]) -> runs k l fin -> runs (m ;; k) (x :: l) fin.
Proof. apply (runs_seq m [x]). Qed.

Lemma runs_2 m x y k l fin :
  checks m (first_violated [x; y]) -> runs k l fin -> runs (m ;; k) (x :: y :: l) fin.
Proof. apply (runs_seq m [x; y]). Qed.

Lemma runs_4 m x y z w k l fin :
  checks m (first_violated [x; y; z; w]) -> runs k l fin ->
  runs (m ;; k) (x :: y :: z :: w :: l) fin.
Proof. apply (runs_seq m [x; y; z; w]). Qed.

Lemma checks_for_each (accepted : gmap string Z) (l : list string) :
  checks
    (when (negb (Nat.eqb (length l) 0))
       (for_each l (fun cipher =>
          match accepted !! cipher with
          | Some _ => ret tt
          | None => fail (ErrCipherSuite cipher)
          end)))
    (first_violated [first_unsupported accepted l]).
Proof.
  assert (Hloop : forall l', checks
            (for_each l' (fun cipher =>
               match accepted !! cipher with
               | Some _ => ret tt
               | None => fail (ErrCipherSuite cipher)
               end))
            (first_unsupported accepted l')).
  { induction l' as [|c l' IH]; intros s; simpl; [reflexivity|].
    unfold bind. destruct (accepted !! c); simpl; [apply IH | reflexivity]. }
  intros s. destruct l as [|c l]; [reflexivity|].
  change (negb (Nat.eqb (length (c :: l)) 0)) with true. unfold when.
  rewrite Hloop. generalize (first_unsupported accepted (c :: l)).
  intros [e|]; reflexivity.
Qed.

End Checks.

(** Case analysis on every test of a straight-line statement. *)
Ltac case_tests :=
  repeat match goal with
         | |- context [if ?b then _ else _] =>
             lazymatch b with
             | context [if _ then _ else _] => fail
             | _ => destruct b
             end
         | |- context [match ?r with inl _ => _ | inr _ => _ end] =>
             lazymatch r with
             | context [if _ then _ else _] => fail
             | _ => destruct r
             end
         end.

Ltac solve_checks :=
  intros ?s;
  cbv [when bind fail ret violated first_violated file_exists paired
       serviceAccountAuth andb orb negb];
  case_tests; reflexivity.

(** [Validate] runs its constraints in [validate_order] and, when all of
    them hold, writes the derived field and returns [nil]. *)
Lemma Validate_runs E o :
  Validate E o =
  match first_violated (validate_order E o) with
  | Some e => (o, inl e)
  | None =>
      (set_NeedsKubernetesClient (serviceAccountAuth o || EnableLeaseController o) o,
       inr tt)
  end.
Proof.
  unfold Validate.
  change (bind get ?k o) with (k o o). cbv beta zeta.
  match goal with
  | |- ?m o = _ =>
      assert (H : runs m (validate_order E o)
                    (modify (fun s =>
                       set_NeedsKubernetesClient
                         (serviceAccountAuth o || EnableLeaseController s) s);;
                     ret tt))
  end.
  { cbv [validate_order before_ports after_ports frontend_tls backend_tls
         uds_exclusivity port_ranges proxy_strategies service_account_auth
         mode_enum profiling kubeconfig channel_size cipher_suites lease_label
         listeners map app not_ephemeral not_reserved port_of].
    repeat first
      [ apply runs_2; [solve_checks|]
      | apply runs_4; [solve_checks|]
      | apply runs_1; [first [apply checks_for_each | solve_checks]|] ].
    apply runs_done. }
  rewrite (H o). destruct (first_violated (validate_order E o)); reflexivity.
Qed.

(** ** Consequences for the result of a run *)

Lemma validate_error_order E o :
  validate_error E o = first_violated (validate_order E o).
Proof.
  unfold validate_error. rewrite Validate_runs.
  destruct (first_violated (validate_order E o)); reflexivity.
Qed.

Lemma validate_state_order E o :
  validate_state E o =
  match first_violated (validate_order E o) with
  | Some _ => o
  | None => set_NeedsKubernetesClient (serviceAccountAuth o || EnableLeaseController o) o
  end.
Proof.
  unfold validate_state. rewrite Validate_runs.
  destruct (first_violated (validate_order E o)); reflexivity.
Qed.

Lemma first_violated_None l :
  first_violated l = None <-> Forall (eq None) l.
Proof.
  induction l as [|[e|] l IH]; simpl.
  - split; auto.
  - split; [discriminate | intros H; inversion H; discriminate].
  - rewrite IH. split; [auto | intros H; inversion H; assumption].
Qed.

Lemma first_violated_Some l e :
  first_violated l = Some e ->
  exists pre post, l = pre ++ Some e :: post /\ Forall (eq None) pre.
Proof.
  induction l as [|[e'|] l IH]; simpl; intros H.
  - discriminate.
  - injection H as ->. exists [], l. split; [reflexivity | constructor].
  - destruct (IH H) as (pre & post & -> & Hpre).
    exists (None :: pre), post. split; [reflexivity | constructor; auto].
Qed.

Lemma first_violated_In l e : first_violated l = Some e -> In (Some e) l.
Proof.
  intros H. destruct (first_violated_Some l e H) as (pre & post & -> & _).
  apply in_or_app. right. left. reflexivity.
Qed.

Lemma succeeds_all E o : succeeds E o <-> Forall (eq None) (validate_order E o).
Proof. unfold succeeds. rewrite validate_error_order. apply first_violated_None. Qed.

Lemma validate_ok_succeeds E o : validate_ok E o = true <-> succeeds E o.
Proof.
  unfold validate_ok, succeeds. destruct (validate_error E o).
  - split; discriminate.
  - split; reflexivity.
Qed.

Lemma not_succeeds_fails E o : ~ succeeds E o -> fails E o.
Proof.
  unfold succeeds, fails. destruct (validate_error E o) as [e|].
  - intros _. exists e. reflexivity.
  - intros H. destruct H. reflexivity.
Qed.

(** ** Tests as propositions *)

Lemma str_ne_true a b : str_ne a b = true <-> a <> b.
Proof.
  unfold str_ne. rewrite negb_true_iff. split.
  - intros H Heq. apply String.eqb_eq in Heq. congruence.
  - intros H. apply String.eqb_neq. assumption.
Qed.

Lemma str_ne_false a b : str_ne a b = false <-> a = b.
Proof. unfold str_ne. rewrite negb_false_iff. apply String.eqb_eq. Qed.

Lemma str_eq_true a b : str_eq a b = true <-> a = b.
Proof. apply String.eqb_eq. Qed.

Lemma str_eq_false a b : str_eq a b = false <-> a <> b.
Proof. apply String.eqb_neq. Qed.

Lemma violated_None b e : None = violated b e <-> b = false.
Proof. destruct b; simpl; split; congruence. Qed.

Lemma violated_Some b e e' : Some e' = violated b e <-> b = true /\ e' = e.
Proof. destruct b; simpl; split; try intros [? ?]; try congruence. intros [= ->]. auto. Qed.

Lemma os_IsNotExist_nil : os_IsNotExist None = false.
Proof. reflexivity. Qed.

Lemma first_unsupported_Some accepted l e :
  first_unsupported accepted l = Some e -> exists cipher, e = ErrCipherSuite cipher.
Proof.
  induction l as [|c l IH]; simpl; [discriminate|].
  destruct (accepted !! c); [assumption|]. intros [= <-]. eauto.
Qed.

(** Unfold the order into the explicit list of its constraints. *)
Ltac unfold_order :=
  cbv [validate_order listener_order before_ports after_ports frontend_tls
       backend_tls uds_exclusivity port_ranges port_ranges_by_listener
       proxy_strategies service_account_auth mode_enum profiling kubeconfig
       channel_size cipher_suites lease_label listeners map flat_map app
       not_ephemeral not_reserved port_of file_exists paired] in *.

(** Reduce the fields of configurations and environments built by the
    [set_] functions. *)
Ltac fields :=
  cbn [set_port set_UdsName set_frontend_tls set_backend_tls set_agent_auth
       set_lease set_LeaseLabel set_NeedsKubernetesClient set_ParseLabels forgiving
       ServerCert ServerKey ServerCaCert ClusterCert ClusterKey ClusterCaCert
       Mode UdsName DeleteUDSFile ServerPort ServerBindAddress AgentPort
       AgentBindAddress AdminPort AdminBindAddress HealthPort HealthBindAddress
       KeepaliveTime FrontendKeepaliveTime EnableProfiling
       EnableContentionProfiling ServerID ServerCount AgentNamespace
       AgentServiceAccount AuthenticationAudience KubeconfigPath KubeconfigQPS
       KubeconfigBurst APIContentType ProxyStrategies CipherSuites
       XfrChannelSize EnableLeaseController LeaseNamespace LeaseLabel
       NeedsKubernetesClient os_Stat os_Getenv uuid_New ParseProxyStrategies
       GetAcceptedCiphers ParseLabels] in *.

(** Turn boolean facts about tests into propositions. *)
Ltac props :=
  repeat match goal with
         | H : None = violated _ _ |- _ => apply violated_None in H
         | H : _ && _ = true |- _ => apply andb_true_iff in H; destruct H
         | H : _ || _ = false |- _ => apply orb_false_iff in H; destruct H
         | H : _ && _ = false |- _ => apply andb_false_iff in H
         | H : _ || _ = true |- _ => apply orb_true_iff in H
         | H : negb _ = true |- _ => apply negb_true_iff in H
         | H : negb _ = false |- _ => apply negb_false_iff in H
         | H : str_ne _ _ = true |- _ => apply str_ne_true in H
         | H : str_ne _ _ = false |- _ => apply str_ne_false in H
         | H : str_eq _ _ = true |- _ => apply str_eq_true in H
         | H : str_eq _ _ = false |- _ => apply str_eq_false in H
         | H : (_ >? _) = true |- _ => rewrite Z.gtb_ltb in H
         | H : (_ >? _) = false |- _ => rewrite Z.gtb_ltb in H
         | H : (_ <? _) = true |- _ => apply Z.ltb_lt in H
         | H : (_ <? _) = false |- _ => apply Z.ltb_ge in H
         | H : (_ <=? _) = true |- _ => apply Z.leb_le in H
         | H : (_ <=? _) = false |- _ => apply Z.leb_gt in H
         | H : (_ =? _) = true |- _ => apply Z.eqb_eq in H
         | H : (_ =? _) = false |- _ => apply Z.eqb_neq in H
         end.

(** Turn a goal about a few tests into cases of propositions. *)
Ltac by_cases :=
  unfold violated, serviceAccountAuth in *;
  repeat match goal with
         | |- context [str_ne ?a ?b] => destruct (str_ne a b) eqn:?
         | |- context [str_eq ?a ?b] => destruct (str_eq a b) eqn:?
         | |- context [os_IsNotExist ?e] => destruct (os_IsNotExist e) eqn:?
         | |- context [?a >? ?b] => destruct (a >? b) eqn:?
         | |- context [?a <? ?b] => destruct (a <? b) eqn:?
         | |- context [?a =? ?b] => destruct (a =? b) eqn:?
         end;
  cbn [andb orb negb]; props.

(** ** What each group of constraints asks for *)

Section Groups.

Variable E : Env.
Variable o : ProxyRunOptions.

Lemma all_hold_cons (c : option ValidateError) l :
  Forall (eq None) (c :: l) <-> None = c /\ Forall (eq None) l.
Proof. apply Forall_cons_iff. Qed.

Lemma all_hold_nil : Forall (eq None) (@nil (option ValidateError)) <-> True.
Proof. split; auto. Qed.

Lemma file_exists_ok path mk :
  None = file_exists E path mk <->
  (path <> "" -> os_IsNotExist (os_Stat E path) = false).
Proof.
  unfold file_exists. rewrite violated_None. by_cases; intuition congruence.
Qed.

Lemma paired_ok this other mk :
  None = paired this other mk <-> (this <> "" -> other <> "").
Proof.
  unfold paired. rewrite violated_None. by_cases; intuition congruence.
Qed.

Lemma frontend_tls_ok :
  Forall (eq None) (frontend_tls E o) <->
  (ServerKey o <> "" -> os_IsNotExist (os_Stat E (ServerKey o)) = false)
  /\ (ServerKey o <> "" -> ServerCert o <> "")
  /\ (ServerCert o <> "" -> os_IsNotExist (os_Stat E (ServerCert o)) = false)
  /\ (ServerCert o <> "" -> ServerKey o <> "")
  /\ (ServerCaCert o <> "" -> os_IsNotExist (os_Stat E (ServerCaCert o)) = false).
Proof.
  unfold frontend_tls.
  rewrite !all_hold_cons, all_hold_nil, !file_exists_ok, !paired_ok. tauto.
Qed.

Lemma backend_tls_ok :
  Forall (eq None) (backend_tls E o) <->
  (ClusterKey o <> "" -> os_IsNotExist (os_Stat E (ClusterKey o)) = false)
  /\ (ClusterKey o <> "" -> ClusterCert o <> "")
  /\ (ClusterCert o <> "" -> os_IsNotExist (os_Stat E (ClusterCert o)) = false)
  /\ (ClusterCert o <> "" -> ClusterKey o <> "")
  /\ (ClusterCaCert o <> "" -> os_IsNotExist (os_Stat E (ClusterCaCert o)) = false).
Proof.
  unfold backend_tls.
  rewrite !all_hold_cons, all_hold_nil, !file_exists_ok, !paired_ok. tauto.
Qed.

Lemma uds_exclusivity_ok :
  Forall (eq None) (uds_exclusivity o) <->
  (UdsName o <> "" ->
   ServerPort o = 0 /\ ServerKey o = "" /\ ServerCert o = "" /\ ServerCaCert o = "").
Proof.
  unfold uds_exclusivity.
  rewrite !all_hold_cons, all_hold_nil, !violated_None.
  by_cases; intuition congruence.
Qed.

Lemma port_ranges_ok :
  Forall (eq None) (port_ranges o) <->
  (ServerPort o <= 49151 /\ (UdsName o = "" -> 1024 <= ServerPort o))
  /\ 1024 <= AgentPort o <= 49151
  /\ 1024 <= AdminPort o <= 49151
  /\ 1024 <= HealthPort o <= 49151.
Proof.
  unfold port_ranges, listeners, not_ephemeral, not_reserved, port_of.
  cbn [map app].
  rewrite !all_hold_cons, all_hold_nil, !violated_None.
  rewrite !Z.gtb_ltb, andb_false_iff, !Z.ltb_ge, str_eq_false.
  destruct (string_dec (UdsName o) ""); intuition lia.
Qed.

Lemma service_account_auth_ok :
  Forall (eq None) (service_account_auth o) <->
  (serviceAccountAuth o = true ->
   ClusterCaCert o = "" /\ AgentNamespace o <> "" /\ AgentServiceAccount o <> ""
   /\ AuthenticationAudience o <> "").
Proof.
  unfold service_account_auth.
  rewrite !all_hold_cons, all_hold_nil, !violated_None.
  destruct (serviceAccountAuth o); cbn [andb].
  - rewrite str_ne_false, !str_eq_false. intuition congruence.
  - intuition congruence.
Qed.

Lemma lease_label_disabled : EnableLeaseController o = false -> lease_label E o = None.
Proof. unfold lease_label. intros ->. reflexivity. Qed.

Lemma before_ports_ok :
  Forall (eq None) (before_ports E o) <->
  Forall (eq None) (frontend_tls E o) /\ Forall (eq None) (backend_tls E o)
  /\ None = mode_enum o /\ Forall (eq None) (uds_exclusivity o).
Proof.
  unfold before_ports. rewrite !Forall_app, all_hold_cons, all_hold_nil. tauto.
Qed.

Lemma after_ports_ok :
  Forall (eq None) (after_ports E o) <->
  None = profiling o /\ Forall (eq None) (service_account_auth o)
  /\ None = kubeconfig E o /\ Forall (eq None) (proxy_strategies E o)
  /\ None = channel_size o /\ None = cipher_suites E o /\ None = lease_label E o.
Proof.
  unfold after_ports. rewrite !Forall_app, !all_hold_cons, !all_hold_nil. tauto.
Qed.

(** A run succeeds exactly when every group of constraints holds. *)
Lemma succeeds_groups :
  succeeds E o <->
  Forall (eq None) (before_ports E o) /\ Forall (eq None) (port_ranges o)
  /\ Forall (eq None) (after_ports E o).
Proof.
  rewrite succeeds_all. unfold validate_order. rewrite !Forall_app. tauto.
Qed.

End Groups.

(** ** The validation order *)

(** C2 (as amended): [Validate] is fail-fast in the order frontend TLS
    triple, backend TLS triple, mode, UDS exclusivity, the upper bounds of
    the server, agent, admin and health ports, then their lower bounds,
    profiling, service-account block, kubeconfig, proxy strategies, channel
    size, cipher suites, lease label: the error it returns is the first
    violated constraint of [validate_order], nothing before it being
    violated, and it returns [nil] only when no constraint is violated. *)
Theorem Validate_returns_first_violation E o :
  match validate_error E o with
  | Some e =>
      exists pre post,
        validate_order E o = pre ++ Some e :: post /\ Forall (eq None) pre
  | None => Forall (eq None) (validate_order E o)
  end.
Proof.
  rewrite validate_error_order.
  destruct (first_violated (validate_order E o)) as [e|] eqn:H.
  - apply first_violated_Some. assumption.
  - apply first_violated_None. assumption.
Qed.

(** C2, the claim as stated, fails: with the server port below the range
    and the agent port above it, the listener-by-listener order meets the
    server port's lower bound first, but [Validate] reports the agent
    port's upper bound. *)
Lemma listener_order_counterexample :
  let o := set_port ServerListener 80
             (set_port AgentListener 50000 (NewProxyRunOptions sample_env)) in
  first_violated (listener_order sample_env o) = Some (ErrReservedPort ServerListener 80)
  /\ validate_error sample_env o = Some (ErrEphemeralPort AgentListener 50000)
  /\ validate_error sample_env o <> first_violated (listener_order sample_env o).
Proof.
  split; [|split]; [vm_compute; reflexivity .. | vm_compute; discriminate].
Qed.

(** ** The derived field *)

(** C6: a successful run leaves the struct as it was except for
    [NeedsKubernetesClient], which holds (service-account authentication
    in use) or (lease controller enabled); service-account authentication
    is then in use exactly when namespace, service account and audience
    are all set. *)
Theorem Validate_sets_NeedsKubernetesClient E o :
  validate_error E o = None ->
  validate_state E o =
    set_NeedsKubernetesClient (serviceAccountAuth o || EnableLeaseController o) o
  /\ NeedsKubernetesClient (validate_state E o) =
       serviceAccountAuth o || EnableLeaseController o
  /\ (serviceAccountAuth o = true <->
      AgentNamespace o <> "" /\ AgentServiceAccount o <> ""
      /\ AuthenticationAudience o <> "").
Proof.
  intros H. rewrite validate_state_order.
  rewrite validate_error_order in H. rewrite H.
  split; [reflexivity | split; [reflexivity|]].
  rewrite <- validate_error_order in H.
  apply succeeds_groups in H. destruct H as (_ & _ & H).
  apply after_ports_ok in H. destruct H as (_ & H & _).
  rewrite service_account_auth_ok in H. split.
  - intros Hs. apply H in Hs. tauto.
  - intros (Hn & _). unfold serviceAccountAuth.
    apply str_ne_true in Hn. rewrite Hn. reflexivity.
Qed.

Lemma Validate_sets_NeedsKubernetesClient_witness :
  let o := set_lease true "k8s-app=konnectivity-server" (NewProxyRunOptions sample_env) in
  validate_error sample_env o = None
  /\ NeedsKubernetesClient (validate_state sample_env o) = true.
Proof.
  split; [reflexivity|].
  destruct (Validate_sets_NeedsKubernetesClient sample_env
              (set_lease true "k8s-app=konnectivity-server"
                 (NewProxyRunOptions sample_env)) eq_refl) as (_ & H & _).
  rewrite H. reflexivity.
Defined.

(** C8: a run that returns an error leaves every field of the struct,
    [NeedsKubernetesClient] included, as it found it. *)
Theorem Validate_error_leaves_state E o e :
  validate_error E o = Some e -> validate_state E o = o.
Proof.
  intros H. rewrite validate_state_order.
  rewrite validate_error_order in H. rewrite H. reflexivity.
Qed.

Lemma Validate_error_leaves_state_witness :
  let o := set_port AdminListener 80
             (set_NeedsKubernetesClient true (NewProxyRunOptions sample_env)) in
  validate_error sample_env o = Some (ErrReservedPort AdminListener 80)
  /\ validate_state sample_env o = o.
Proof.
  split; [reflexivity|].
  apply (Validate_error_leaves_state sample_env _ (ErrReservedPort AdminListener 80)).
  reflexivity.
Defined.

(** ** Port ranges *)

(** Changing one listener's port leaves every constraint outside the UDS
    and port groups as it was. *)
Lemma set_port_other_groups E l p o :
  frontend_tls E (set_port l p o) = frontend_tls E o
  /\ backend_tls E (set_port l p o) = backend_tls E o
  /\ mode_enum (set_port l p o) = mode_enum o
  /\ after_ports E (set_port l p o) = after_ports E o.
Proof. repeat split. Qed.

(** C1 (as amended): with everything else in the configuration fixed and
    acceptable, [Validate] accepts for the agent, admin and health ports
    exactly the values of the closed interval from 1024 to 49151 (1023 is
    rejected, 1024 and 49151 are accepted, 49152 is rejected), and the same
    for the server port when no UDS name is set; with a UDS name set the
    server port is accepted exactly when it is 0.  Port 0 is never accepted
    otherwise. *)
Theorem Validate_port_range E o l p0 :
  validate_ok E (set_port l p0 o) = true ->
  forall p, validate_ok E (set_port l p o) = true <-> accepted_port l o p.
Proof.
  intros H0 p. rewrite validate_ok_succeeds in *.
  rewrite succeeds_groups, before_ports_ok in *.
  destruct (set_port_other_groups E l p o) as (-> & -> & -> & ->).
  destruct (set_port_other_groups E l p0 o) as (Hf & Hb & Hm & Ha).
  rewrite Hf, Hb, Hm, Ha in H0. clear Hf Hb Hm Ha.
  destruct H0 as ((Hf & Hb & Hm & Hu) & Hp & Ha).
  rewrite uds_exclusivity_ok, port_ranges_ok in *.
  unfold accepted_port.
  destruct (str_ne (UdsName o) "") eqn:Huds; props;
    destruct l; fields; intuition (try congruence; try lia).
Qed.

Lemma Validate_port_range_witness :
  validate_ok sample_env (set_port AgentListener 8091 (NewProxyRunOptions sample_env)) = true
  /\ validate_ok sample_env (set_port AgentListener 1024 (NewProxyRunOptions sample_env)) = true
  /\ validate_ok sample_env (set_port AgentListener 1023 (NewProxyRunOptions sample_env)) = false.
Proof.
  pose proof (Validate_port_range sample_env (NewProxyRunOptions sample_env)
                AgentListener 8091 eq_refl) as H.
  split; [reflexivity | split].
  - apply H. simpl. lia.
  - destruct (validate_ok sample_env
                (set_port AgentListener 1023 (NewProxyRunOptions sample_env))) eqn:Hv;
      [|reflexivity].
    apply H in Hv. simpl in Hv. lia.
Defined.

(** C1, the claim as stated, fails: a port of exactly 1024 is accepted for
    each of the four listeners. *)
Lemma port_1024_accepted :
  validate_ok sample_env (set_port ServerListener 1024 (NewProxyRunOptions sample_env)) = true
  /\ validate_ok sample_env (set_port AgentListener 1024 (NewProxyRunOptions sample_env)) = true
  /\ validate_ok sample_env (set_port AdminListener 1024 (NewProxyRunOptions sample_env)) = true
  /\ validate_ok sample_env (set_port HealthListener 1024 (NewProxyRunOptions sample_env)) = true.
Proof. repeat split; vm_compute; reflexivity. Qed.

(** ** Unix-domain socket *)

(** C3: with a UDS name set, [Validate] fails unless the server port is 0
    and server cert, server key and server CA cert are all empty. *)
Theorem Validate_uds_exclusive E o :
  UdsName o <> "" ->
  ~ (ServerPort o = 0 /\ ServerCert o = "" /\ ServerKey o = "" /\ ServerCaCert o = "") ->
  fails E o.
Proof.
  intros Huds Hnot. apply not_succeeds_fails. intros Hs. apply Hnot.
  apply succeeds_groups in Hs. destruct Hs as (Hs & _).
  apply before_ports_ok in Hs. destruct Hs as (_ & _ & _ & Hs).
  rewrite uds_exclusivity_ok in Hs. tauto.
Qed.

Lemma Validate_uds_exclusive_witness :
  fails sample_env (set_UdsName "/var/run/konnectivity.sock" (NewProxyRunOptions sample_env)).
Proof.
  apply Validate_uds_exclusive.
  - discriminate.
  - simpl. intros (H & _). discriminate H.
Defined.

(** ** TLS pairing *)

Lemma pairing_violation_fails E o r :
  (cert_of r o = "" /\ key_of r o <> "") \/ (cert_of r o <> "" /\ key_of r o = "") ->
  fails E o.
Proof.
  intros H. apply not_succeeds_fails. intros Hs.
  apply succeeds_groups in Hs. destruct Hs as (Hs & _).
  apply before_ports_ok in Hs. destruct Hs as (Hf & Hb & _).
  rewrite frontend_tls_ok in Hf. rewrite backend_tls_ok in Hb.
  destruct r; cbn [cert_of key_of] in H; tauto.
Qed.

Lemma pairing_error_inv E o r e :
  validate_error E o = Some e -> is_pairing_error r e = true ->
  (cert_of r o = "" /\ key_of r o <> "") \/ (cert_of r o <> "" /\ key_of r o = "").
Proof.
  intros He Hp. rewrite validate_error_order in He.
  apply first_violated_In in He. unfold_order. cbn [In] in He.
  repeat match type of He with
         | _ \/ _ => destruct He as [He|He]
         end;
    try contradiction;
    try (symmetry in He; apply violated_Some in He; destruct He as [Hb ->];
         destruct r; try discriminate Hp; cbn [cert_of key_of]; props; tauto);
    try (exfalso; revert He Hp; clear;
         repeat match goal with
                | |- context [match ?x with _ => _ end] => destruct x
                end;
         intros; try discriminate; try (injection He as <-); destruct r; discriminate).
  apply first_unsupported_Some in He. destruct He as [c ->].
  destruct r; discriminate.
Qed.

(** C4: when exactly one of a role's cert and key is set, to a file that
    exists, [Validate] fails; when both are set to files that exist, or
    both are empty, [Validate] does not return that role's pairing error. *)
Theorem Validate_tls_pairing E o r :
  ((cert_of r o = "" /\ key_of r o <> "" /\ os_Stat E (key_of r o) = None)
   \/ (key_of r o = "" /\ cert_of r o <> "" /\ os_Stat E (cert_of r o) = None) ->
   fails E o)
  /\ ((cert_of r o <> "" /\ key_of r o <> ""
       /\ os_Stat E (cert_of r o) = None /\ os_Stat E (key_of r o) = None)
      \/ (cert_of r o = "" /\ key_of r o = "") ->
      forall e, validate_error E o = Some e -> is_pairing_error r e = false).
Proof.
  split.
  - intros H. apply (pairing_violation_fails E o r). tauto.
  - intros H e He. destruct (is_pairing_error r e) eqn:Hp; [|reflexivity].
    pose proof (pairing_error_inv E o r e He Hp). tauto.
Qed.

Lemma Validate_tls_pairing_witness :
  fails sample_env
    (set_frontend_tls "" "/etc/tls/server.key" "" (NewProxyRunOptions sample_env))
  /\ forall e,
       validate_error sample_env
         (set_port AgentListener 80
            (set_backend_tls "/etc/tls/agent.crt" "/etc/tls/agent.key" ""
               (NewProxyRunOptions sample_env))) = Some e ->
       is_pairing_error Backend e = false.
Proof.
  split.
  - apply (proj1 (Validate_tls_pairing sample_env _ Frontend)).
    left. repeat split. discriminate.
  - apply (proj2 (Validate_tls_pairing sample_env _ Backend)).
    left. repeat split; discriminate.
Defined.

(** ** Service-account authentication *)

(** C5: with one or two of agent namespace, agent service account and
    authentication audience set and the rest empty, [Validate] fails; with
    all three set and a cluster CA cert set, [Validate] fails. *)
Theorem Validate_service_account_block E o :
  (auth_fields_set o = 1%nat \/ auth_fields_set o = 2%nat -> fails E o)
  /\ (AgentNamespace o <> "" /\ AgentServiceAccount o <> ""
      /\ AuthenticationAudience o <> "" ->
      ClusterCaCert o <> "" -> fails E o).
Proof.
  assert (Hinv : succeeds E o -> serviceAccountAuth o = true ->
                 ClusterCaCert o = "" /\ AgentNamespace o <> ""
                 /\ AgentServiceAccount o <> "" /\ AuthenticationAudience o <> "").
  { intros Hs. apply succeeds_groups in Hs. destruct Hs as (_ & _ & Hs).
    apply after_ports_ok in Hs. destruct Hs as (_ & Hs & _).
    apply service_account_auth_ok. assumption. }
  split.
  - intros Hn. apply not_succeeds_fails. intros Hs. specialize (Hinv Hs).
    unfold auth_fields_set, serviceAccountAuth in *.
    destruct (str_ne (AgentNamespace o) "") eqn:H1,
             (str_ne (AgentServiceAccount o) "") eqn:H2,
             (str_ne (AuthenticationAudience o) "") eqn:H3;
      cbn [Nat.b2n orb] in *; props;
      try (destruct Hn; discriminate);
      destruct (Hinv eq_refl) as (_ & ? & ? & ?); congruence.
  - intros (Hns & _ & _) Hca. apply not_succeeds_fails. intros Hs.
    specialize (Hinv Hs). unfold serviceAccountAuth in Hinv.
    apply str_ne_true in Hns. rewrite Hns in Hinv.
    destruct (Hinv eq_refl) as (? & _). congruence.
Qed.

Lemma Validate_service_account_block_witness :
  fails sample_env
    (set_agent_auth "kube-system" "" "system:konnectivity-server"
       (NewProxyRunOptions sample_env))
  /\ fails sample_env
       (set_agent_auth "kube-system" "konnectivity-agent" "system:konnectivity-server"
          (set_backend_tls "" "" "/etc/tls/ca.crt" (NewProxyRunOptions sample_env))).
Proof.
  split.
  - apply (proj1 (Validate_service_account_block sample_env _)).
    right. reflexivity.
  - apply (proj2 (Validate_service_account_block sample_env _)).
    + repeat split; discriminate.
    + discriminate.
Defined.

(** ** Defaults *)

(** C7: the options of [NewProxyRunOptions] (mode grpc, server, agent,
    health and admin ports 8090, 8091, 8092 and 8095, no TLS paths, no
    auth fields, no UDS name, proxy strategies "default", channel size 10,
    no cipher suites, lease controller disabled) pass [Validate], which
    leaves [NeedsKubernetesClient] false, in every environment whose
    strategy parser accepts "default". *)
Theorem default_options_valid E :
  (exists strategies, ParseProxyStrategies E "default" = inr strategies) ->
  let o := NewProxyRunOptions E in
  (Mode o = "grpc" /\ ServerPort o = 8090 /\ AgentPort o = 8091
   /\ HealthPort o = 8092 /\ AdminPort o = 8095
   /\ ServerCert o = "" /\ ServerKey o = "" /\ ServerCaCert o = ""
   /\ ClusterCert o = "" /\ ClusterKey o = "" /\ ClusterCaCert o = ""
   /\ AgentNamespace o = "" /\ AgentServiceAccount o = ""
   /\ AuthenticationAudience o = "" /\ KubeconfigPath o = "" /\ UdsName o = ""
   /\ ProxyStrategies o = "default" /\ XfrChannelSize o = 10
   /\ CipherSuites o = [] /\ EnableLeaseController o = false)
  /\ validate_error E o = None
  /\ NeedsKubernetesClient (validate_state E o) = false.
Proof.
  intros [strategies Hparse] o.
  assert (Hok : first_violated (validate_order E o) = None).
  { subst o. unfold_order. unfold NewProxyRunOptions. fields.
    rewrite Hparse. reflexivity. }
  split; [repeat split|].
  rewrite validate_error_order, validate_state_order, Hok.
  split; reflexivity.
Qed.

Lemma default_options_valid_witness :
  validate_error sample_env (NewProxyRunOptions sample_env) = None
  /\ NeedsKubernetesClient (validate_state sample_env (NewProxyRunOptions sample_env)) = false.
Proof.
  apply (default_options_valid sample_env).
  exists [ProxyStrategyDefault]. reflexivity.
Defined.

(** ** File existence *)

Lemma file_exists_forgiving E path mk :
  file_exists (forgiving E) path mk = file_exists E path mk.
Proof.
  unfold file_exists, forgiving. cbn [os_Stat].
  destruct (os_IsNotExist (os_Stat E path)) eqn:Hne.
  - rewrite Hne. reflexivity.
  - cbn [os_IsNotExist]. rewrite andb_false_r. reflexivity.
Qed.

Lemma validate_order_forgiving E o :
  validate_order (forgiving E) o = validate_order E o.
Proof.
  unfold validate_order, before_ports, after_ports, frontend_tls, backend_tls,
    kubeconfig.
  rewrite !file_exists_forgiving. reflexivity.
Qed.

Lemma existence_error_inv E o f path err :
  validate_error E o = Some (existence_error f path err) ->
  path = path_of f o /\ path <> "" /\ err = os_Stat E path
  /\ os_IsNotExist err = true.
Proof.
  intros He. rewrite validate_error_order in He.
  apply first_violated_In in He. unfold_order. cbn [In] in He.
  repeat match type of He with
         | _ \/ _ => destruct He as [He|He]
         end;
    try contradiction;
    try (symmetry in He; apply violated_Some in He; destruct He as [Hb He];
         destruct f; try discriminate He; injection He as -> ->;
         cbn [path_of]; props; auto);
    try (exfalso; revert He; clear;
         repeat match goal with
                | |- context [match ?x with _ => _ end] => destruct x
                end;
         intros; try discriminate; destruct f; discriminate).
  apply first_unsupported_Some in He. destruct He as [c He].
  destruct f; discriminate.
Qed.

(** C9: each of the seven existence checks (server key, server cert,
    server CA cert, cluster key, cluster cert, cluster CA cert, kubeconfig)
    fails only on a path whose [os.Stat] error is does-not-exist; turning
    every other [os.Stat] failure into success changes nothing in what
    [Validate] returns or writes. *)
Theorem Validate_existence_checks E o :
  (forall f path err,
     validate_error E o = Some (existence_error f path err) ->
     path = path_of f o /\ path <> "" /\ err = os_Stat E path
     /\ os_IsNotExist err = true)
  /\ Validate (forgiving E) o = Validate E o.
Proof.
  split.
  - apply existence_error_inv.
  - rewrite !Validate_runs, validate_order_forgiving. reflexivity.
Qed.

Lemma Validate_existence_checks_witness :
  os_IsNotExist (os_Stat sample_env "/srv/missing/server.key") = true
  /\ os_Stat sample_env "/root/server.key" = Some EACCES
  /\ validate_error sample_env
       (set_frontend_tls "/root/server.crt" "/root/server.key" "/root/ca.crt"
          (NewProxyRunOptions sample_env)) = None.
Proof.
  split; [|split].
  - apply (proj1 (Validate_existence_checks sample_env
                    (set_frontend_tls "/etc/tls/server.crt" "/srv/missing/server.key" ""
                       (NewProxyRunOptions sample_env)))
             ServerKeyPath "/srv/missing/server.key" (Some ENOENT)).
    reflexivity.
  - reflexivity.
  - unfold validate_error.
    rewrite <- (proj2 (Validate_existence_checks sample_env _)). reflexivity.
Defined.

(** ** Lease label *)

(** C10: with the lease controller disabled, what [Validate] returns does
    not depend on the lease label or on the label parser: any label, valid
    selector or not, is accepted whenever the rest of the configuration
    is. *)
Theorem Validate_ignores_lease_label E o :
  EnableLeaseController o = false ->
  forall parse label,
    validate_error (set_ParseLabels parse E) (set_LeaseLabel label o) = validate_error E o
    /\ (succeeds E o -> succeeds E (set_LeaseLabel label o)).
Proof.
  intros Hoff parse label.
  assert (Heq : forall parse', validate_order (set_ParseLabels parse' E) (set_LeaseLabel label o)
                = validate_order E o).
  { intros parse'. unfold validate_order, after_ports.
    rewrite !lease_label_disabled by assumption. reflexivity. }
  split.
  - rewrite !validate_error_order, Heq. reflexivity.
  - unfold succeeds. rewrite !validate_error_order.
    rewrite <- (Heq (ParseLabels E)). destruct E; intros H; exact H.
Qed.

Lemma Validate_ignores_lease_label_witness :
  sample_ParseLabels "no selector, ==" = inl "invalid label: no selector"
  /\ validate_error sample_env
       (set_LeaseLabel "no selector, ==" (NewProxyRunOptions sample_env)) = None.
Proof.
  split; [reflexivity|].
  apply (proj2 (Validate_ignores_lease_label sample_env (NewProxyRunOptions sample_env)
                  eq_refl sample_ParseLabels "no selector, ==")).
  reflexivity.
Defined.
